(** * User Store Service and Dashboard Service

    A shallow embedding of [backend_service.py] (the User Store Service)
    and [frontend_service.py] (the Dashboard Service), and the properties of
    their request handlers.

    - Parsed JSON is the inductive type [json]; a Python [dict] with string
      keys is a [gmap string _].
    - The module-level [users_db] is threaded through the backend handlers
      by a state-and-exception monad; a Python exception that escapes a
      handler is turned into the service's 500 reply by [serve].
    - The clock ([datetime.utcnow().isoformat()]) and the identifier
      generator ([str(uuid.uuid4())]) are inputs of the handlers that use
      them.
    - The Dashboard reaches the backend through a [transport], which gives
      the outcome of one HTTP exchange made with [requests]. *)

From stdpp Require Import gmap strings list fin_maps pretty.
From Stdlib Require Import ZArith.

Open Scope Z_scope.

(** ** JSON values, as [request.get_json()] and [response.json()] give them.
    [JNull] is Python's [None]. Numbers are integers: every operator below
    treats a fractional number as it treats a non-zero integer. *)

#[warnings="-register-all"]
Inductive json :=
| JNull
| JBool (b : bool)
| JNum (n : Z)
| JStr (s : string)
| JArr (l : list json)
| JObj (o : gmap string json).

(** An HTTP reply with a JSON body: [jsonify(body), status]. *)
Abbreviation reply := (json * Z)%type.

(** ** The Python operators the handlers apply to parsed JSON *)

Module Py.

Inductive exn :=
| TypeError
| KeyError
| AttributeError
| ValueError
| UndefinedError
| BadRequestKeyError.

Inductive res (A : Type) :=
| Ret (a : A)
| Raise (e : exn).
Arguments Ret {A} a.
Arguments Raise {A} e.

#[global] Instance res_bind : MBind res := fun A B k m =>
  match m with
  | Ret a => k a
  | Raise e => Raise e
  end.

(** [bool(v)]: what [if not data] tests. *)
Definition truthy (v : json) : bool :=
  match v with
  | JNull => false
  | JBool b => b
  | JNum n => negb (n =? 0)
  | JStr s => negb (String.eqb s "")
  | JArr l => negb (bool_decide (l = []))
  | JObj o => negb (bool_decide (o = ∅))
  end.

(** [sub in s] on two strings. *)
Fixpoint contains (sub s : string) : bool :=
  String.prefix sub s ||
  match s with
  | EmptyString => false
  | String _ s' => contains sub s'
  end.

Definition is_str (field : string) (v : json) : bool :=
  match v with
  | JStr s => String.eqb s field
  | _ => false
  end.

(** [field in data]: key membership on a dict, element membership on a
    list, substring on a string, [TypeError] on anything else. *)
Definition py_in (field : string) (data : json) : res bool :=
  match data with
  | JObj o => Ret (bool_decide (is_Some (o !! field)))
  | JArr l => Ret (existsb (is_str field) l)
  | JStr s => Ret (contains field s)
  | _ => Raise TypeError
  end.

(** [data[field]] with a string index. *)
Definition getitem (data : json) (field : string) : res json :=
  match data with
  | JObj o =>
      match o !! field with
      | Some v => Ret v
      | None => Raise KeyError
      end
  | _ => Raise TypeError
  end.

(** [data.get(field, default)]; only a dict has the method. *)
Definition get (data : json) (field : string) (default : json) : res json :=
  match data with
  | JObj o => Ret (from_option id default (o !! field))
  | _ => Raise AttributeError
  end.

End Py.

Import Py.

(** [{"error": msg}], the body of every error reply. *)
Definition error_body (msg : string) : json := JObj {[ "error" := JStr msg ]}.

(** The [error] member of a reply body. *)
Definition error_of (r : json) : option json :=
  match r with
  | JObj o => o !! "error"
  | _ => None
  end.

(** The member [k] of a JSON object. *)
Definition member (k : string) (j : json) : option json :=
  match j with
  | JObj o => o !! k
  | _ => None
  end.

(** ** The User Store Service *)

Module Backend.

(** [users_db]: user id to user record; a record is itself a dict. *)
Abbreviation record := (gmap string json).
Abbreviation users := (gmap string (gmap string json)).

Definition users_db : users :=
  {[ "1" := {[ "id" := JStr "1";
               "name" := JStr "John Doe";
               "email" := JStr "john@example.com";
               "role" := JStr "admin";
               "created_at" := JStr "2025-01-01T10:00:00Z" ]};
     "2" := {[ "id" := JStr "2";
               "name" := JStr "Jane Smith";
               "email" := JStr "jane@example.com";
               "role" := JStr "user";
               "created_at" := JStr "2025-01-02T11:00:00Z" ]} ]}.

(** A handler reads and writes [users_db] and may raise. *)
Definition M (A : Type) : Type := users -> res A * users.

Definition ret {A} (a : A) : M A := fun db => (Ret a, db).

#[global] Instance M_bind : MBind M := fun A B k m db =>
  match m db with
  | (Ret a, db') => k a db'
  | (Raise e, db') => (Raise e, db')
  end.

Definition lift {A} (r : res A) : M A := fun db => (r, db).

(** [user_id in users_db] *)
Definition db_mem (user_id : string) : M bool :=
  fun db => (Ret (bool_decide (is_Some (db !! user_id))), db).

(** [users_db[user_id]] *)
Definition db_getitem (user_id : string) : M record :=
  fun db =>
    match db !! user_id with
    | Some u => (Ret u, db)
    | None => (Raise KeyError, db)
    end.

(** [users_db[user_id] = user] *)
Definition db_setitem (user_id : string) (user : record) : M unit :=
  fun db => (Ret tt, <[user_id := user]> db).

(** [users_db.pop(user_id)] *)
Definition db_pop (user_id : string) : M record :=
  fun db =>
    match db !! user_id with
    | Some u => (Ret u, delete user_id db)
    | None => (Raise KeyError, db)
    end.

(** [user[field] = v], where [user] is the very object stored under
    [user_id]: the assignment is seen through [users_db]. *)
Definition user_setitem (user_id field : string) (v : json) : M unit :=
  fun db => (Ret tt, alter (fun user => <[field := v]> user) user_id db).

(** [len(users_db)] *)
Definition db_len : M Z := fun db => (Ret (Z.of_nat (size db)), db).

(** [map_to_list] lists the users in the map's own order, which is not
    Python's insertion order; nothing below depends on the order. *)
Definition get_users : M reply :=
  fun db =>
    (Ret (JObj {[ "users" := JArr (JObj <$> (map_to_list db).*2);
                  "count" := JNum (Z.of_nat (size db)) ]}, 200), db).

Definition get_user (user_id : string) : M reply :=
  present ← db_mem user_id;
  if negb present then ret (error_body "User not found", 404)
  else
    user ← db_getitem user_id;
    ret (JObj user, 200).

Definition required_fields : list string := ["name"; "email"].

(** The validation loop of [create_user]: the first field of [fields] that
    is not [in data], if any. *)
Fixpoint first_missing (fields : list string) (data : json)
  : res (option string) :=
  match fields with
  | [] => Ret None
  | field :: rest =>
      present ← py_in field data;
      if negb present then Ret (Some field) else first_missing rest data
  end.

Definition create_user (data : json) (uuid4 now : string) : M reply :=
  if negb (truthy data) then ret (error_body "No data provided", 400)
  else
    missing ← lift (first_missing required_fields data);
    match missing with
    | Some field =>
        ret (error_body ("Missing required field: " +:+ field), 400)
    | None =>
        let user_id := uuid4 in
        name ← lift (getitem data "name");
        email ← lift (getitem data "email");
        role ← lift (get data "role" (JStr "user"));
        let new_user : record :=
          {[ "id" := JStr user_id;
             "name" := name;
             "email" := email;
             "role" := role;
             "created_at" := JStr now ]} in
        db_setitem user_id new_user;;
        ret (JObj new_user, 201)
    end.

Definition updatable_fields : list string := ["name"; "email"; "role"].

(** The loop of [update_user]. *)
Fixpoint update_fields (fields : list string) (user_id : string) (data : json)
  : M unit :=
  match fields with
  | [] => ret tt
  | field :: rest =>
      present ← lift (py_in field data);
      (if present : bool then
         v ← lift (getitem data field);
         user_setitem user_id field v
       else ret tt);;
      update_fields rest user_id data
  end.

(** What that loop makes of a record when the body is the object [o]. *)
Definition overwrite (o : gmap string json) (fields : list string)
  (user : record) : record :=
  foldl (fun u field =>
           match o !! field with
           | Some v => <[field := v]> u
           | None => u
           end)
        user fields.

(** [user = users_db[user_id]] names the stored object, so the loop and
    the [updated_at] stamp write through the store, and the record that
    is answered is the stored one, read back after them. *)
Definition update_user (user_id : string) (data : json) (now : string)
  : M reply :=
  present ← db_mem user_id;
  if negb present then ret (error_body "User not found", 404)
  else if negb (truthy data) then ret (error_body "No data provided", 400)
  else
    update_fields updatable_fields user_id data;;
    user_setitem user_id "updated_at" (JStr now);;
    user ← db_getitem user_id;
    ret (JObj user, 200).

Definition delete_user (user_id : string) : M reply :=
  present ← db_mem user_id;
  if negb present then ret (error_body "User not found", 404)
  else
    deleted_user ← db_pop user_id;
    ret (JObj {[ "message" := JStr "User deleted successfully";
                 "user" := JObj deleted_user ]}, 200).

Definition health_check (now : string) : M reply :=
  ret (JObj {[ "status" := JStr "healthy";
               "service" := JStr "backend-user-service";
               "timestamp" := JStr now;
               "version" := JStr "1.0.0" ]}, 200).

(** [environment] is [os.environ.get('ENVIRONMENT')]. *)
Definition get_stats (environment : option string) (now : string) : M reply :=
  total_users ← db_len;
  ret (JObj {[ "total_users" := JNum total_users;
               "service_info" :=
                 JObj {[ "name" := JStr "backend-user-service";
                         "version" := JStr "1.0.0";
                         "environment" :=
                           JStr (default "development" environment) ]};
               "timestamp" := JStr now ]}, 200).

Definition not_found : reply := (error_body "Endpoint not found", 404).

Definition internal_error : reply := (error_body "Internal server error", 500).

(** What the client gets: an exception that escapes the handler is
    answered by the [errorhandler(500)]. The store keeps whatever the
    handler had written before raising. *)
Definition serve (h : M reply) (db : users) : reply * users :=
  match h db with
  | (Ret r, db') => (r, db')
  | (Raise _, db') => (internal_error, db')
  end.

(** What a handler reads from outside the request while it runs: the
    identifier [str(uuid.uuid4())] returns, the clock, the process
    environment. *)
Record env := {
  env_uuid4 : string;
  env_utcnow : string;
  env_ENVIRONMENT : option string
}.

(** The requests this service's own code answers: one per route and
    method it declares, and [Unmatched] for a path no route matches. The
    body of a POST or PUT is what [request.get_json()] returned. Two kinds
    of request are not among them, because Flask answers them itself, with
    a page of its own: a declared path with another method (405), and a
    POST or PUT whose body [get_json()] rejects (400 or 415). *)
Inductive request :=
| GET_health
| GET_users
| GET_user (user_id : string)
| POST_users (data : json)
| PUT_user (user_id : string) (data : json)
| DELETE_user (user_id : string)
| GET_stats
| Unmatched.

Definition route (e : env) (rq : request) : M reply :=
  match rq with
  | GET_health => health_check (env_utcnow e)
  | GET_users => get_users
  | GET_user user_id => get_user user_id
  | POST_users data => create_user data (env_uuid4 e) (env_utcnow e)
  | PUT_user user_id data => update_user user_id data (env_utcnow e)
  | DELETE_user user_id => delete_user user_id
  | GET_stats => get_stats (env_ENVIRONMENT e) (env_utcnow e)
  | Unmatched => ret not_found
  end.

Definition app (e : env) (rq : request) (db : users) : reply * users :=
  serve (route e rq) db.

(** The store after a sequence of requests. *)
Fixpoint run (trace : list (env * request)) (db : users) : users :=
  match trace with
  | [] => db
  | (e, rq) :: rest => run rest (app e rq db).2
  end.

(** The stores the service can be in: [users_db] at start-up, then
    whatever a request leaves. *)
Inductive reachable : users -> Prop :=
| reachable_init : reachable users_db
| reachable_step e rq db : reachable db -> reachable (app e rq db).2.




(** Every record is stored under its own [id]. *)
Definition id_ok (db : users) : Prop :=
  forall k u, db !! k = Some u -> u !! "id" = Some (JStr k).

Definition keeps_identity (g : record -> record) : Prop :=
  forall u, g u !! "id" = u !! "id" /\ g u !! "created_at" = u !! "created_at".

(** The four things a request can do to the store. *)
Inductive store_effect (e : env) (rq : request) (db : users) : users -> Prop :=
| effect_none : store_effect e rq db db
| effect_insert data (new_user : record) :
    rq = POST_users data ->
    new_user !! "id" = Some (JStr (env_uuid4 e)) ->
    store_effect e rq db (<[env_uuid4 e := new_user]> db)
| effect_alter user_id g :
    keeps_identity g ->
    store_effect e rq db (alter g user_id db)
| effect_delete user_id :
    store_effect e rq db (delete user_id db).

(** A record as [create_user] makes it: its [id] is the key it is stored
    under, and it has a [name], an [email], a [role] and a [created_at]. *)
Definition complete_record (k : string) (u : record) : Prop :=
  u !! "id" = Some (JStr k)
  /\ is_Some (u !! "name")
  /\ is_Some (u !! "email")
  /\ is_Some (u !! "role")
  /\ is_Some (u !! "created_at").


(** The routes that only read. *)
Definition read_only (rq : request) : bool :=
  match rq with
  | GET_health | GET_users | GET_user _ | GET_stats | Unmatched => true
  | POST_users _ | PUT_user _ _ | DELETE_user _ => false
  end.

End Backend.

(** ** The Dashboard Service *)

Module Frontend.

(** *** The HTTP client

    One exchange made with [requests], as the library reports it: either
    it raises a [RequestException] (connection refused, timeout, ...), whose
    text is [msg], or it returns a response. [body] is what
    [response.json()] gives: the decoded value, or the text of the
    [JSONDecodeError] (a [RequestException]) it raises. *)

Inductive payload :=
| Json (j : json)
| NotJson (msg : string).

Record response := {
  status_code : Z;
  reason : string;
  url : string;
  body : payload
}.

Inductive outcome :=
| RequestException (msg : string)
| Response (r : response).

(** method, url and JSON payload of the request to its outcome. *)
Definition transport : Type := string -> string -> option json -> outcome.

(** [response.raise_for_status()]: the text of the [HTTPError] it raises,
    [None] when it returns. *)
Definition raise_for_status (r : response) : option string :=
  if (400 <=? status_code r) && (status_code r <? 500) then
    Some (pretty (status_code r) +:+ " Client Error: " +:+ reason r
          +:+ " for url: " +:+ url r)
  else if (500 <=? status_code r) && (status_code r <? 600) then
    Some (pretty (status_code r) +:+ " Server Error: " +:+ reason r
          +:+ " for url: " +:+ url r)
  else None.

(** The text of the [HTTPError] for an error status. *)
Definition http_error_text (status : Z) (reason_phrase url : string) : string :=
  pretty status
  +:+ (if status <? 500 then " Client Error: " else " Server Error: ")
  +:+ reason_phrase +:+ " for url: " +:+ url.

(** *** The template engine

    What Jinja does with the expressions of [MAIN_TEMPLATE]. A value is a
    JSON value or [Undefined]; [Undefined] prints as the empty string, and
    raises when an attribute or an item of it is asked for. *)

Inductive jval :=
| Value (j : json)
| Undefined.

(** [v.name], for the names the template uses (none of them is a method of
    a Python dict, list, str, int or bool). *)
Definition jattr (v : jval) (name : string) : res jval :=
  match v with
  | Undefined => Raise UndefinedError
  | Value (JObj o) =>
      Ret (match o !! name with Some x => Value x | None => Undefined end)
  | Value _ => Ret Undefined
  end.

(** A byte of the form 10xxxxxx: in UTF-8 it continues the character
    begun by an earlier byte. *)
Definition is_continuation (c : Ascii.ascii) : bool :=
  match c with
  | Ascii.Ascii _ _ _ _ _ _ b6 b7 => b7 && negb b6
  end.

(** [s[:n]] on a Python string: the first [n] characters, each a lead
    byte with the continuation bytes that follow it. *)
Fixpoint take_chars (n : nat) (s : string) : string :=
  match s with
  | EmptyString => EmptyString
  | String c s' =>
      if is_continuation c then String c (take_chars n s')
      else
        match n with
        | O => EmptyString
        | S n' => String c (take_chars n' s')
        end
  end.

(** [v[:n]]. Jinja compiles a slice to Python's own subscript: a string
    and a list are cut, and anything else raises ([TypeError]; for a dict
    under Python 3.12 [KeyError], which is answered the same way). *)
Definition jslice (v : jval) (n : nat) : res jval :=
  match v with
  | Undefined => Raise UndefinedError
  | Value (JStr s) => Ret (Value (JStr (take_chars n s)))
  | Value (JArr l) => Ret (Value (JArr (take n l)))
  | Value _ => Raise TypeError
  end.

(** The values a slice accepts. *)
Definition sliceable (v : json) : bool :=
  match v with
  | JStr _ | JArr _ => true
  | _ => false
  end.

Fixpoint chars (s : string) : list json :=
  match s with
  | EmptyString => []
  | String c s' => JStr (String c EmptyString) :: chars s'
  end.

(** The items [{% for user in users %}] goes through. *)
Definition jiter (v : json) : res (list json) :=
  match v with
  | JArr l => Ret l
  | JStr s => Ret (chars s)
  | JObj o => Ret (JStr <$> (map_to_list o).*1)
  | _ => Raise TypeError
  end.

(** One row of the users table. *)
Record user_row := {
  row_id : jval;          (* user.id[:8] *)
  row_name : jval;
  row_email : jval;
  row_role : jval;
  row_created_at : jval;  (* user.created_at[:10] *)
  row_delete : jval       (* /delete_user/{{ user.id }} *)
}.

(** The page [MAIN_TEMPLATE] renders to, without its fixed markup. *)
Record page := {
  pg_backend_status : string;
  pg_frontend_status : string;
  pg_timestamp : string;
  pg_alert : option (string * string);   (* alert-<type>, message *)
  pg_total_users : jval;
  pg_environment : jval;
  pg_version : jval;
  pg_users : option (list user_row);
      (* the table; [None] is the paragraph
         "No users found or backend service unavailable." *)
  pg_backend_url : string
}.

(** The variables [dashboard] passes to the template. *)
Record context := {
  users : json;
  stats : option json;
  backend_status : string;
  frontend_status : string;
  backend_url : string;
  timestamp : string;
  message : option string;
  message_type : string
}.

Definition render_row (user : json) : res user_row :=
  id ← jattr (Value user) "id";
  id8 ← jslice id 8;
  name ← jattr (Value user) "name";
  email ← jattr (Value user) "email";
  role ← jattr (Value user) "role";
  created_at ← jattr (Value user) "created_at";
  created10 ← jslice created_at 10;
  Ret {| row_id := id8; row_name := name; row_email := email;
         row_role := role; row_created_at := created10; row_delete := id |}.

Fixpoint render_rows (l : list json) : res (list user_row) :=
  match l with
  | [] => Ret []
  | user :: rest =>
      row ← render_row user;
      rows ← render_rows rest;
      Ret (row :: rows)
  end.

(** [{{ stats.<path> if stats else 'N/A' }}] *)
Definition stat_card (stats : option json) (path : list string) : res jval :=
  match stats with
  | Some s =>
      if truthy s then foldl (fun v name => v ← v; jattr v name)
                             (Ret (Value s)) path
      else Ret (Value (JStr "N/A"))
  | None => Ret (Value (JStr "N/A"))
  end.

Definition str_truthy (s : option string) : bool :=
  match s with
  | Some m => negb (String.eqb m "")
  | None => false
  end.

(** [render_template_string(MAIN_TEMPLATE, ...)] *)
Definition render_main (c : context) : res page :=
  let alert :=
    if str_truthy (message c)
    then Some (message_type c, default "" (message c))
    else None in
  total_users ← stat_card (stats c) ["total_users"];
  environment ← stat_card (stats c) ["service_info"; "environment"];
  version ← stat_card (stats c) ["service_info"; "version"];
  table ← (if truthy (users c) then
             items ← jiter (users c);
             rows ← render_rows items;
             Ret (Some rows)
           else Ret None);
  Ret {| pg_backend_status := backend_status c;
         pg_frontend_status := frontend_status c;
         pg_timestamp := timestamp c;
         pg_alert := alert;
         pg_total_users := total_users;
         pg_environment := environment;
         pg_version := version;
         pg_users := table;
         pg_backend_url := backend_url c |}.

(** *** The handlers *)

(** What a Dashboard route answers. *)
Inductive answer :=
| Html (status : Z) (p : page)
| RedirectTo (location : string) (query : list (string * string))
| BadRequest
| InternalError.

Definition status_of (a : answer) : Z :=
  match a with
  | Html status _ => status
  | RedirectTo _ _ => 302
  | BadRequest => 400
  | InternalError => 500
  end.

Section Service.

(** [os.getenv('BACKEND_URL', 'http://localhost:8086')] *)
Variable BACKEND_URL : string.

(** [str(v)] for a list or a dict, which an f-string prints through
    their [repr]. *)
Variable py_repr : json -> string.

(** [f"{v}"] *)
Definition py_str (v : json) : string :=
  match v with
  | JStr s => s
  | JNum n => pretty n
  | JBool true => "True"
  | JBool false => "False"
  | JNull => "None"
  | _ => py_repr v
  end.

Definition call_backend_api (net : transport) (endpoint method : string)
  (data : option json) : res reply :=
  let url := BACKEND_URL +:+ endpoint in
  sent ← (if String.eqb method "GET" then Ret (net "GET" url None)
          else if String.eqb method "POST" then Ret (net "POST" url data)
          else if String.eqb method "DELETE" then Ret (net "DELETE" url None)
          else Raise ValueError);
  match sent with
  | RequestException e => Ret (error_body e, 500)
  | Response r =>
      match raise_for_status r with
      | Some e => Ret (error_body e, 500)
      | None =>
          match body r with
          | Json j => Ret (j, status_code r)
          | NotJson e => Ret (error_body e, 500)
          end
      end
  end.

(** A GET through the helper came back as an error payload with status
    500. *)
Definition call_failed (net : transport) (endpoint : string) : Prop :=
  exists msg, call_backend_api net endpoint "GET" None
              = Ret (error_body msg, 500).

(** [args] is [request.args], [now] the clock reading, already formatted. *)
Definition dashboard (net : transport) (args : gmap string string)
  (now : string) : res answer :=
  '(users_response, users_status) ← call_backend_api net "/api/users" "GET" None;
  users ← (if users_status =? 200 then get users_response "users" (JArr [])
           else Ret (JArr []));
  '(stats_response, stats_status) ← call_backend_api net "/api/stats" "GET" None;
  let stats := if stats_status =? 200 then Some stats_response else None in
  '(backend_health, backend_status_code) ← call_backend_api net "/health" "GET" None;
  let backend_status :=
    if backend_status_code =? 200 then "🟢 Online" else "🔴 Offline" in
  p ← render_main {| users := users;
                     stats := stats;
                     backend_status := backend_status;
                     frontend_status := "🟢 Online";
                     backend_url := BACKEND_URL;
                     timestamp := now;
                     message := args !! "message";
                     message_type := default "success" (args !! "type") |};
  Ret (Html 200 p).

(** [request.form[key]] *)
Definition form_getitem (form : gmap string string) (key : string)
  : res string :=
  match form !! key with
  | Some v => Ret v
  | None => Raise BadRequestKeyError
  end.

(** [redirect(url_for('dashboard', message=message, type=message_type))] *)
Definition redirect_dashboard (message message_type : string) : answer :=
  RedirectTo "/" [("message", message); ("type", message_type)].

Definition add_user (net : transport) (form : gmap string string)
  : res answer :=
  name ← form_getitem form "name";
  email ← form_getitem form "email";
  role ← form_getitem form "role";
  let user_data :=
    JObj {[ "name" := JStr name; "email" := JStr email; "role" := JStr role ]} in
  '(response, status_code) ←
    call_backend_api net "/api/users" "POST" (Some user_data);
  if status_code =? 201 then
    Ret (redirect_dashboard ("User '" +:+ name +:+ "' added successfully!")
                            "success")
  else
    error ← get response "error" (JStr "Unknown error");
    Ret (redirect_dashboard ("Failed to add user: " +:+ py_str error) "danger").

Definition delete_user (net : transport) (user_id : string) : res answer :=
  '(response, status_code) ←
    call_backend_api net ("/api/users/" +:+ user_id) "DELETE" None;
  if status_code =? 200 then
    Ret (redirect_dashboard "User deleted successfully!" "success")
  else
    error ← get response "error" (JStr "Unknown error");
    Ret (redirect_dashboard ("Failed to delete user: " +:+ py_str error)
                            "danger").

(** The Dashboard's own [/health]. *)
Definition health_check (net : transport) (now : string) : res reply :=
  '(backend_health, status_code) ← call_backend_api net "/health" "GET" None;
  let backend_status :=
    if status_code =? 200 then "healthy" else "unhealthy" in
  Ret (JObj {[ "status" := JStr "healthy";
               "service" := JStr "frontend-dashboard";
               "backend_status" := JStr backend_status;
               "timestamp" := JStr now;
               "version" := JStr "1.0.0" ]}, 200).

(** [environment] is [os.environ.get('ENVIRONMENT')]. *)
Definition frontend_stats (net : transport) (environment : option string)
  (now : string) : res reply :=
  '(backend_stats, backend_status) ←
    call_backend_api net "/api/stats" "GET" None;
  Ret (JObj {[ "frontend_service" :=
                 JObj {[ "name" := JStr "frontend-dashboard";
                         "version" := JStr "1.0.0";
                         "environment" :=
                           JStr (default "development" environment);
                         "backend_url" := JStr BACKEND_URL ]};
               "backend_status" :=
                 JStr (if backend_status =? 200 then "online" else "offline");
               "backend_stats" :=
                 (if backend_status =? 200 then backend_stats else JNull);
               "timestamp" := JStr now ]}, 200).

(** What the browser gets: a missing form field is answered 400 by Flask,
    any other exception by the [errorhandler(500)] page. *)
Definition serve (h : res answer) : answer :=
  match h with
  | Ret a => a
  | Raise BadRequestKeyError => BadRequest
  | Raise _ => InternalError
  end.

End Service.

(** The User Store Service as the other end of the wire: the exchange in
    which the backend answers [r] to a request for [url]. [response.url]
    is the URL as sent, which is [url] itself when it needs no percent
    encoding. *)
Definition backend_answers (r : reply) (reason : string) : transport :=
  fun _ url _ =>
    Response {| status_code := r.2; reason := reason; url := url;
                body := Json r.1 |}.



(** An id that goes into a URL path as it is: letters, digits, [-] and
    [_] only, and at least one. Every id of the seed data is one, and so
    is every [str(uuid.uuid4())]. *)
Definition plain_char (c : Ascii.ascii) : bool :=
  let n := Ascii.nat_of_ascii c in
  (Nat.leb 48 n && Nat.leb n 57)
  || (Nat.leb 65 n && Nat.leb n 90)
  || (Nat.leb 97 n && Nat.leb n 122)
  || Nat.eqb n 45 || Nat.eqb n 95.

Fixpoint all_plain (s : string) : bool :=
  match s with
  | EmptyString => true
  | String c s' => plain_char c && all_plain s'
  end.

Definition plain_id (s : string) : bool :=
  negb (String.eqb s "") && all_plain s.

(** On this request the transport hands over the reply [r] of the User
    Store, as JSON and with [r]'s status. *)
Definition delivers (net : transport) (method url : string)
  (data : option json) (r : reply) (reason_phrase : string) : Prop :=
  net method url data = backend_answers r reason_phrase method url data.

End Frontend.

(** ** Sample requests and environments *)

Module Sample.

Import Backend.

Definition env0 : env :=
  {| env_uuid4 := "0b0e7a4c-5a1f-4c7e-9d2b-3f6a8c1d2e90";
     env_utcnow := "2025-01-03T12:00:00.000000";
     env_ENVIRONMENT := None |}.

Definition env1 : env :=
  {| env_uuid4 := "7c9e6679-7425-40de-944b-e07fc1f90ae7";
     env_utcnow := "2025-01-04T08:30:00.000000";
     env_ENVIRONMENT := Some "production" |}.

(** [uuid4] returning the identifier it gave in [env0]. *)
Definition env2 : env :=
  {| env_uuid4 := env_uuid4 env0;
     env_utcnow := "2025-01-05T09:00:00.000000";
     env_ENVIRONMENT := None |}.

Definition alice : gmap string json :=
  {[ "name" := JStr "A"; "email" := JStr "a@x.com" ]}.

Definition bob : gmap string json :=
  {[ "name" := JStr "B"; "email" := JStr "b@x.com" ]}.

Definition john : gmap string json :=
  {[ "id" := JStr "1";
     "name" := JStr "John Doe";
     "email" := JStr "john@example.com";
     "role" := JStr "admin";
     "created_at" := JStr "2025-01-01T10:00:00Z" ]}.

Definition trace0 : list (env * request) :=
  [ (env0, POST_users (JObj alice));
    (env1, PUT_user "1" (JObj {[ "name" := JStr "X"; "created_at" := JStr "never" ]}));
    (env1, PUT_user "1" (JStr "name"));
    (env1, DELETE_user "2") ].

Definition form0 : gmap string string :=
  {[ "name" := "A"; "email" := "a@x.com"; "role" := "user" ]}.

Definition localhost : string := "http://localhost:8086".

Definition no_repr : json -> string := fun _ => "".

Definition net_down : Frontend.transport :=
  fun _ _ _ => Frontend.RequestException "Connection refused".

(** A User Store at [localhost], holding [db], seen from the Dashboard. *)
Definition wire (e : env) (db : users) : Frontend.transport :=
  fun method url data =>
    if String.eqb url "http://localhost:8086/health" then
      Frontend.backend_answers (app e GET_health db).1 "OK" method url data
    else if String.eqb url "http://localhost:8086/api/stats" then
      Frontend.backend_answers (app e GET_stats db).1 "OK" method url data
    else if String.eqb url "http://localhost:8086/api/users" then
      match data with
      | Some body =>
          Frontend.backend_answers (app e (POST_users body) db).1 "CREATED"
            method url data
      | None =>
          Frontend.backend_answers (app e GET_users db).1 "OK" method url data
      end
    else if String.eqb url "http://localhost:8086/api/users/2" then
      Frontend.backend_answers (app e (DELETE_user "2") db).1 "OK"
        method url data
    else
      Frontend.backend_answers not_found "NOT FOUND" method url data.

End Sample.

(** ** Facts about the User Store Service *)

Import Backend.

Ltac run_handler :=
  cbv [mbind M_bind res_bind lift ret negb fst snd db_mem db_getitem db_setitem
       db_pop user_setitem py_in getitem get].

Ltac absent := rewrite bool_decide_eq_false_2 by (by intros [? ?]).
Ltac present := rewrite bool_decide_eq_true_2 by eauto.

(** *** Python values *)

Lemma truthy_obj (o : gmap string json) : truthy (JObj o) = bool_decide (o ≠ ∅).
Proof. unfold truthy. by rewrite bool_decide_not. Qed.

Lemma truthy_obj_lookup (o : gmap string json) k v :
  o !! k = Some v -> truthy (JObj o) = true.
Proof.
  intros H. rewrite truthy_obj. apply bool_decide_eq_true.
  intros ->. by rewrite lookup_empty in H.
Qed.

Lemma truthy_empty_obj : truthy (JObj ∅) = false.
Proof. rewrite truthy_obj. apply bool_decide_eq_false. intros H. by apply H. Qed.

Lemma error_of_body msg : error_of (error_body msg) = Some (JStr msg).
Proof. unfold error_of, error_body. apply lookup_singleton_eq. Qed.

Lemma error_body_inj a b : error_body a = error_body b -> a = b.
Proof.
  intros H. apply (f_equal error_of) in H. rewrite !error_of_body in H. congruence.
Qed.

(** *** The update loop *)

Lemma overwrite_lookup o fields u k :
  overwrite o fields u !! k =
    if decide (k ∈ fields) then
      match o !! k with Some v => Some v | None => u !! k end
    else u !! k.
Proof.
  unfold overwrite. revert u. induction fields as [|f fields IH]; intros u.
  - cbn [foldl]. destruct (decide _) as [H|]; [|done]. by apply elem_of_nil in H.
  - cbn [foldl]. rewrite IH.
    destruct (decide (k ∈ fields)) as [Hin|Hin].
    + rewrite decide_True by (by right). destruct (o !! k) eqn:Hk; [done|].
      destruct (decide (f = k)) as [->|]; [by rewrite Hk|].
      destruct (o !! f); [by rewrite lookup_insert_ne|done].
    + destruct (decide (k = f)) as [->|Hne].
      * rewrite decide_True by (by left).
        destruct (o !! f); [by rewrite lookup_insert_eq|done].
      * rewrite decide_False by (intros [?|?]%elem_of_cons; done).
        destruct (o !! f); [by rewrite lookup_insert_ne|done].
Qed.

Lemma update_fields_obj fields user_id o db :
  update_fields fields user_id (JObj o) db
    = (Ret tt, alter (overwrite o fields) user_id db).
Proof.
  revert db. induction fields as [|f fields IH]; intros db.
  - cbn [update_fields ret]. f_equal. symmetry. by apply alter_id.
  - cbn [update_fields]. run_handler.
    destruct (o !! f) as [v|] eqn:Hf.
    + present. run_handler. rewrite IH.
      f_equal. rewrite alter_alter_eq. apply alter_ext. intros u _.
      unfold overwrite, compose. cbn [foldl]. by rewrite Hf.
    + absent. run_handler. rewrite IH.
      f_equal. unfold overwrite at 2. cbn [foldl]. by rewrite Hf.
Qed.

(** Whatever the body is, the loop only rewrites the record of [user_id],
    and in it only members named in [fields]; this also holds of the
    store it leaves when it raises. *)
Lemma update_fields_frame fields user_id data db :
  exists g : gmap string json -> gmap string json,
    (update_fields fields user_id data db).2 = alter g user_id db
    /\ forall u k, k ∉ fields -> g u !! k = u !! k.
Proof.
  revert db. induction fields as [|f fields IH]; intros db.
  - exists id. split; [|done]. cbn [update_fields ret snd]. symmetry. by apply alter_id.
  - assert (Hskip : exists g : gmap string json -> gmap string json,
              db = alter g user_id db
              /\ forall u k, k ∉ f :: fields -> g u !! k = u !! k).
    { exists id. split; [|done]. symmetry. by apply alter_id. }
    cbn [update_fields]. run_handler.
    destruct (py_in f data) as [[|]|] eqn:Hin; run_handler;
      cbv [py_in] in Hin |- *; rewrite ?Hin; [| |done].
    + destruct (getitem data f) as [v|] eqn:Hv; cbv [getitem] in Hv |- *;
        rewrite ?Hv; [|done].
      destruct (IH (alter (fun user => <[f := v]> user) user_id db))
        as (g & Hg & Hframe).
      exists (g ∘ (fun user => <[f := v]> user)). split.
      * rewrite <- alter_alter_eq, <- Hg.
        by destruct (update_fields fields user_id data _) as [[] ?].
      * intros u k Hk. unfold compose.
        rewrite Hframe by (intros ?; apply Hk; by right).
        apply lookup_insert_ne. intros ->. apply Hk. by left.
    + destruct (IH db) as (g & Hg & Hframe). exists g. split.
      * rewrite <- Hg. by destruct (update_fields fields user_id data db) as [[] ?].
      * intros u k Hk. apply Hframe. intros ?. apply Hk. by right.
Qed.

(** *** One equation per handler outcome *)

Lemma create_user_falsy e data db :
  truthy data = false ->
  app e (POST_users data) db = ((error_body "No data provided", 400), db).
Proof. intros H. unfold app, serve, route, create_user. rewrite H. done. Qed.

Lemma update_user_falsy e user_id data db :
  is_Some (db !! user_id) -> truthy data = false ->
  app e (PUT_user user_id data) db = ((error_body "No data provided", 400), db).
Proof.
  intros Hin H. unfold app, serve, route, update_user. run_handler.
  present. rewrite H. done.
Qed.

Lemma update_user_object e user_id (o : gmap string json) db u :
  db !! user_id = Some u -> o ≠ ∅ ->
  let u' := <["updated_at" := JStr (env_utcnow e)]> (overwrite o updatable_fields u) in
  app e (PUT_user user_id (JObj o)) db = ((JObj u', 200), <[user_id := u']> db).
Proof.
  intros Hu Ho u'. unfold app, serve, route, update_user. run_handler.
  present. rewrite truthy_obj, bool_decide_eq_true_2 by done.
  rewrite update_fields_obj, alter_alter_eq, lookup_alter_eq, Hu.
  cbn [fmap option_fmap option_map]. by rewrite (alter_alt_Some _ _ _ _ Hu).
Qed.

Lemma get_user_absent e db user_id :
  db !! user_id = None ->
  app e (GET_user user_id) db = ((error_body "User not found", 404), db).
Proof.
  intros H. unfold app, serve, route, get_user. run_handler.
  rewrite bool_decide_eq_false_2; [done|]. rewrite H. by intros [? ?].
Qed.

Lemma delete_user_absent e db user_id :
  db !! user_id = None ->
  app e (DELETE_user user_id) db = ((error_body "User not found", 404), db).
Proof.
  intros H. unfold app, serve, route, delete_user. run_handler.
  rewrite bool_decide_eq_false_2; [done|]. rewrite H. by intros [? ?].
Qed.

Lemma delete_user_present e db user_id u :
  db !! user_id = Some u ->
  app e (DELETE_user user_id) db
    = ((JObj {[ "message" := JStr "User deleted successfully";
                "user" := JObj u ]}, 200), delete user_id db).
Proof.
  intros H. unfold app, serve, route, delete_user. run_handler.
  present. by rewrite H.
Qed.

(** *** What a request can do to the store, and the status it answers *)

Lemma app_store_effect e rq db : store_effect e rq db (app e rq db).2.
Proof.
  unfold app, serve. destruct rq as [| |uid|data|uid data|uid| |]; cbn [route].
  - apply effect_none.
  - apply effect_none.
  - unfold get_user. run_handler.
    destruct (db !! uid) eqn:Hu; [present|absent];
      run_handler; rewrite ?Hu; apply effect_none.
  - unfold create_user. destruct (truthy data); cbn [negb]; [|apply effect_none].
    run_handler.
    destruct (first_missing required_fields data) as [[f|]|]; try apply effect_none.
    destruct data; try apply effect_none.
    destruct (o !! "name"); [|apply effect_none].
    destruct (o !! "email"); [|apply effect_none].
    cbn [snd]. eapply effect_insert; [done|]. apply lookup_insert_eq.
  - assert (Hfields : forall k, k = "id" \/ k = "created_at" -> k ∉ updatable_fields).
    { unfold updatable_fields.
      intros k [->| ->];
        by intros [[=]|[[=]|[[=]|[]%elem_of_nil]%elem_of_cons]%elem_of_cons]%elem_of_cons. }
    unfold update_user. run_handler.
    destruct (db !! uid) as [u|] eqn:Hu; [present|absent; apply effect_none].
    run_handler. destruct (truthy data); [|apply effect_none].
    destruct (update_fields_frame updatable_fields uid data db) as (g & Hg & Hframe).
    destruct (update_fields updatable_fields uid data db) as [[[]|] db'] eqn:Hup;
      cbn [snd] in Hg; subst db'.
    + rewrite alter_alter_eq, lookup_alter_eq, Hu.
      cbn [fmap option_fmap option_map snd].
      apply effect_alter. intros u0. unfold compose.
      rewrite !lookup_insert_ne by done. split; apply Hframe, Hfields; auto.
    + cbn [snd]. apply effect_alter. intros u0.
      split; apply Hframe, Hfields; auto.
  - unfold delete_user. run_handler.
    destruct (db !! uid) eqn:Hu;
      [present; run_handler; rewrite Hu; apply effect_delete
      |absent; apply effect_none].
  - apply effect_none.
  - apply effect_none.
Qed.

Lemma app_status e rq db :
  let s := (app e rq db).1.2 in
  s = 200 \/ s = 201 \/ s = 400 \/ s = 404 \/ s = 500.
Proof.
  unfold app, serve.
  destruct rq as [| |uid|data|uid data|uid| |]; cbn [route].
  - cbv. tauto.
  - cbv [get_users fst snd]. tauto.
  - unfold get_user. run_handler.
    repeat case_match; unfold internal_error in *; simplify_eq; cbv [fst snd]; tauto.
  - unfold create_user. run_handler.
    repeat case_match; unfold internal_error in *; simplify_eq; cbv [fst snd]; tauto.
  - unfold update_user. run_handler.
    repeat case_match; unfold internal_error in *; simplify_eq; cbv [fst snd]; tauto.
  - unfold delete_user. run_handler.
    repeat case_match; unfold internal_error in *; simplify_eq; cbv [fst snd]; tauto.
  - cbv [get_stats db_len mbind M_bind ret fst snd]. tauto.
  - cbv [ret not_found fst snd]. tauto.
Qed.

Lemma users_db_id_ok : id_ok users_db.
Proof.
  intros k u. unfold users_db.
  intros [[<- <-]|[_ [<- <-]%lookup_singleton_Some]]%lookup_insert_Some; reflexivity.
Qed.

Lemma store_effect_id_ok e rq db db' :
  store_effect e rq db db' -> id_ok db -> id_ok db'.
Proof.
  intros [|data nu _ Hid|uid g Hg|uid] Hok k u; [by apply Hok| | |].
  - intros [[<- <-]|[_ ?]]%lookup_insert_Some; [done|by apply Hok].
  - rewrite lookup_alter. destruct (decide (uid = k)) as [->|]; [|by apply Hok].
    destruct (db !! k) as [u0|] eqn:Hk; [|done]. intros [= <-].
    rewrite (proj1 (Hg u0)). by apply Hok.
  - intros [_ ?]%lookup_delete_Some. by apply Hok.
Qed.

Lemma reachable_id_ok db : reachable db -> id_ok db.
Proof.
  induction 1 as [|e rq db _ IH]; [apply users_db_id_ok|].
  eapply store_effect_id_ok; [apply app_store_effect|done].
Qed.


(** A create request that is not answered 201 leaves the store as it
    was, whatever its body. *)
Lemma create_user_rejected_frame e data db :
  (app e (POST_users data) db).1.2 <> 201 -> (app e (POST_users data) db).2 = db.
Proof.
  unfold app, serve. cbn [route]. unfold create_user.
  destruct (truthy data); cbn [negb]; [|done]. run_handler.
  destruct (first_missing required_fields data) as [[f|]|]; try done.
  destruct data; try done.
  destruct (o !! "name"); [|done]. destruct (o !! "email"); [|done].
  cbn [fst snd]. done.
Qed.

(** *** Create *)

(** C1, as the handler has it. A create request whose body is an object
    with [name] and [email] is answered 201 with the new record: its [id]
    is the identifier [uuid4] gave, [name] and [email] are the body's,
    [role] is the body's or ["user"] when the body has none, [created_at]
    is the clock reading. The record is stored under its [id], and what
    is stored under any other id stays as it was. The handler does not
    compare the identifier with the ids of the store: when it is not one
    of them the store has one more user; when it is, the record under it
    is replaced and the count is as before. *)
Theorem create_user_inserts (e : env) (o : gmap string json)
  (name email : json) (db : users) :
  o !! "name" = Some name ->
  o !! "email" = Some email ->
  let new_user : gmap string json :=
    {[ "id" := JStr (env_uuid4 e);
       "name" := name;
       "email" := email;
       "role" := default (JStr "user") (o !! "role");
       "created_at" := JStr (env_utcnow e) ]} in
  let db' := (app e (POST_users (JObj o)) db).2 in
  app e (POST_users (JObj o)) db
    = ((JObj new_user, 201), <[env_uuid4 e := new_user]> db)
  /\ db' !! env_uuid4 e = Some new_user
  /\ (forall k, k <> env_uuid4 e -> db' !! k = db !! k)
  /\ (db !! env_uuid4 e = None -> size db' = S (size db))
  /\ (is_Some (db !! env_uuid4 e) -> size db' = size db).
Proof.
  intros Hn He new_user db'.
  assert (Happ : app e (POST_users (JObj o)) db
                 = ((JObj new_user, 201), <[env_uuid4 e := new_user]> db)).
  { unfold app, serve, route, create_user.
    rewrite (truthy_obj_lookup _ _ _ Hn). cbn [first_missing required_fields].
    run_handler. rewrite !bool_decide_eq_true_2 by eauto. run_handler.
    rewrite Hn, He. run_handler. done. }
  subst db'. rewrite Happ. cbn [snd]. split; [done|]. split; [|split; [|split]].
  - apply lookup_insert_eq.
  - intros k Hk. by apply lookup_insert_ne.
  - intros Hfresh. by apply map_size_insert_None.
  - intros Hold. by apply map_size_insert_Some.
Qed.

Lemma create_user_inserts_witness :
  Sample.alice !! "name" = Some (JStr "A")
  /\ Sample.alice !! "email" = Some (JStr "a@x.com")
  /\ let new_user : gmap string json :=
       {[ "id" := JStr (env_uuid4 Sample.env0);
          "name" := JStr "A";
          "email" := JStr "a@x.com";
          "role" := default (JStr "user") (Sample.alice !! "role");
          "created_at" := JStr (env_utcnow Sample.env0) ]} in
     let db' := (app Sample.env0 (POST_users (JObj Sample.alice)) users_db).2 in
     app Sample.env0 (POST_users (JObj Sample.alice)) users_db
       = ((JObj new_user, 201), <[env_uuid4 Sample.env0 := new_user]> users_db)
     /\ db' !! env_uuid4 Sample.env0 = Some new_user
     /\ (forall k, k <> env_uuid4 Sample.env0 -> db' !! k = users_db !! k)
     /\ (users_db !! env_uuid4 Sample.env0 = None -> size db' = S (size users_db))
     /\ (is_Some (users_db !! env_uuid4 Sample.env0) -> size db' = size users_db).
Proof.
  split; [reflexivity|]. split; [reflexivity|].
  exact (create_user_inserts Sample.env0 Sample.alice (JStr "A") (JStr "a@x.com")
           users_db eq_refl eq_refl).
Defined.

(** C1, as stated, fails when [uuid4] returns an identifier that is a key
    of the store, which the handler never rules out: the create is
    answered 201 with that id, the record that was stored under it is
    replaced, and the store has no more users than before. *)
Lemma create_user_uuid_collision_counterexample :
  let db := (app Sample.env0 (POST_users (JObj Sample.alice)) users_db).2 in
  let created := app Sample.env2 (POST_users (JObj Sample.bob)) db in
  (db !! env_uuid4 Sample.env2 ≫= lookup "name") = Some (JStr "A")
  /\ created.1.2 = 201
  /\ member "id" created.1.1 = Some (JStr (env_uuid4 Sample.env2))
  /\ (created.2 !! env_uuid4 Sample.env2 ≫= lookup "name") = Some (JStr "B")
  /\ size created.2 = size db.
Proof. repeat split; vm_compute; reflexivity. Qed.

(** C2, as the handler has it. A create request whose body is an object
    without [name] or without [email] is answered 400 and leaves the store
    as it was. The text is "No data provided" when the object is empty;
    otherwise it is "Missing required field: " followed by [name] if
    [name] is missing, by [email] if only [email] is. *)
Theorem create_user_missing_field e (o : gmap string json) db :
  o !! "name" = None \/ o !! "email" = None ->
  app e (POST_users (JObj o)) db =
    ((error_body
        (if decide (o = ∅) then "No data provided"
         else "Missing required field: " +:+
              match o !! "name" with None => "name" | Some _ => "email" end),
      400), db).
Proof.
  intros Hmiss. destruct (decide (o = ∅)) as [->|Hne].
  - apply create_user_falsy, truthy_empty_obj.
  - unfold app, serve, route, create_user.
    rewrite truthy_obj, bool_decide_eq_true_2 by done.
    cbn [first_missing required_fields]. run_handler.
    destruct (o !! "name") as [n|] eqn:Hn.
    + destruct Hmiss as [|He]; [done|]. rewrite He. present. absent. done.
    + absent. done.
Qed.

Lemma create_user_missing_field_witness :
  (({[ "name" := JStr "A" ]} : gmap string json) !! "name" = None
   \/ ({[ "name" := JStr "A" ]} : gmap string json) !! "email" = None)
  /\ app Sample.env0 (POST_users (JObj {[ "name" := JStr "A" ]})) users_db
     = ((error_body "Missing required field: email", 400), users_db).
Proof.
  assert (H : ({[ "name" := JStr "A" ]} : gmap string json) !! "name" = None
              \/ ({[ "name" := JStr "A" ]} : gmap string json) !! "email" = None)
    by (right; reflexivity).
  split; [exact H|].
  exact (create_user_missing_field Sample.env0 {[ "name" := JStr "A" ]} users_db H).
Defined.

(** C2, as stated, fails on the empty object: it has no [name], and the
    answer is "No data provided", not "Missing required field: name". *)
Lemma create_user_empty_object_counterexample :
  (∅ : gmap string json) !! "name" = None
  /\ (app Sample.env0 (POST_users (JObj ∅)) users_db).1
     = (error_body "No data provided", 400)
  /\ (app Sample.env0 (POST_users (JObj ∅)) users_db).1
     <> (error_body "Missing required field: name", 400).
Proof.
  rewrite create_user_falsy by apply truthy_empty_obj.
  repeat split. intros H. apply (f_equal fst), error_body_inj in H. discriminate H.
Qed.

(** C9. A falsy body, the empty object in particular, is answered 400
    "No data provided" by create and, for a stored id, by update; the
    store stays as it was, so no user is created and no [updated_at] is
    written. *)
Theorem falsy_body_is_no_data e data db user_id :
  data = JObj ∅ \/ truthy data = false ->
  is_Some (db !! user_id) ->
  app e (POST_users data) db = ((error_body "No data provided", 400), db)
  /\ app e (PUT_user user_id data) db
     = ((error_body "No data provided", 400), db).
Proof.
  intros Hdata Hin.
  assert (Hfalsy : truthy data = false).
  { destruct Hdata as [->|]; [apply truthy_empty_obj|done]. }
  split; [by apply create_user_falsy|by apply update_user_falsy].
Qed.

Lemma falsy_body_is_no_data_witness :
  ((JObj ∅ : json) = JObj ∅ \/ truthy (JObj ∅) = false)
  /\ is_Some (users_db !! "1")
  /\ app Sample.env0 (POST_users (JObj ∅)) users_db
     = ((error_body "No data provided", 400), users_db)
  /\ app Sample.env0 (PUT_user "1" (JObj ∅)) users_db
     = ((error_body "No data provided", 400), users_db).
Proof.
  assert (H1 : (JObj ∅ : json) = JObj ∅ \/ truthy (JObj ∅) = false)
    by (left; reflexivity).
  assert (H2 : is_Some (users_db !! "1")) by (exists Sample.john; reflexivity).
  split; [exact H1|]. split; [exact H2|].
  exact (falsy_body_is_no_data Sample.env0 (JObj ∅) users_db "1" H1 H2).
Defined.

(** *** Update *)



(** *** Delete *)

(** C4. In a store the service can be in, deleting a stored id is
    answered 200 with the message and the removed record, whose [id] is
    the requested id; the id is gone from the store, and a GET of it is
    then answered 404 "User not found". *)
Theorem delete_present_user e e' db user_id :
  reachable db ->
  is_Some (db !! user_id) ->
  exists deleted,
    db !! user_id = Some deleted
    /\ app e (DELETE_user user_id) db
         = ((JObj {[ "message" := JStr "User deleted successfully";
                     "user" := JObj deleted ]}, 200), delete user_id db)
    /\ deleted !! "id" = Some (JStr user_id)
    /\ delete user_id db !! user_id = None
    /\ app e' (GET_user user_id) (delete user_id db)
         = ((error_body "User not found", 404), delete user_id db).
Proof.
  intros Hr [u Hu]. exists u. repeat split.
  - done.
  - by apply delete_user_present.
  - by apply (reachable_id_ok db Hr).
  - apply lookup_delete_eq.
  - apply get_user_absent, lookup_delete_eq.
Qed.

Lemma delete_present_user_witness :
  reachable users_db
  /\ is_Some (users_db !! "2")
  /\ exists deleted,
       users_db !! "2" = Some deleted
       /\ app Sample.env0 (DELETE_user "2") users_db
            = ((JObj {[ "message" := JStr "User deleted successfully";
                        "user" := JObj deleted ]}, 200), delete "2" users_db)
       /\ deleted !! "id" = Some (JStr "2")
       /\ delete "2" users_db !! "2" = None
       /\ app Sample.env1 (GET_user "2") (delete "2" users_db)
            = ((error_body "User not found", 404), delete "2" users_db).
Proof.
  assert (H2 : is_Some (users_db !! "2")) by (eexists; reflexivity).
  split; [exact reachable_init|]. split; [exact H2|].
  exact (delete_present_user Sample.env0 Sample.env1 users_db "2" reachable_init H2).
Defined.

(** C5. Deleting an id that is not stored is answered 404 "User not
    found" and leaves the store as it was; a second such request finds the
    same store and gets the same answer. *)
Theorem delete_absent_user e e' db user_id :
  db !! user_id = None ->
  app e (DELETE_user user_id) db = ((error_body "User not found", 404), db)
  /\ app e' (DELETE_user user_id) (app e (DELETE_user user_id) db).2
       = app e (DELETE_user user_id) db.
Proof.
  intros H. split; [by apply delete_user_absent|].
  rewrite (delete_user_absent e) by done. cbn [snd]. by apply delete_user_absent.
Qed.

Lemma delete_absent_user_witness :
  users_db !! "3" = None
  /\ app Sample.env0 (DELETE_user "3") users_db
     = ((error_body "User not found", 404), users_db)
  /\ app Sample.env1 (DELETE_user "3") (app Sample.env0 (DELETE_user "3") users_db).2
     = app Sample.env0 (DELETE_user "3") users_db.
Proof.
  split; [reflexivity|].
  apply (delete_absent_user Sample.env0 Sample.env1 users_db "3"). reflexivity.
Defined.

(** *** The life of a record *)




(** ** More about the User Store Service *)

(** *** Further equations *)

Lemma create_user_object e (o : gmap string json) name email db :
  o !! "name" = Some name ->
  o !! "email" = Some email ->
  let new_user : gmap string json :=
    {[ "id" := JStr (env_uuid4 e);
       "name" := name;
       "email" := email;
       "role" := default (JStr "user") (o !! "role");
       "created_at" := JStr (env_utcnow e) ]} in
  app e (POST_users (JObj o)) db
    = ((JObj new_user, 201), <[env_uuid4 e := new_user]> db).
Proof.
  intros Hn He new_user. unfold app, serve, route, create_user.
  rewrite (truthy_obj_lookup _ _ _ Hn). cbn [first_missing required_fields].
  run_handler. rewrite !bool_decide_eq_true_2 by eauto. run_handler.
  rewrite Hn, He. run_handler. done.
Qed.

Lemma get_user_present e db user_id u :
  db !! user_id = Some u ->
  app e (GET_user user_id) db = ((JObj u, 200), db).
Proof.
  intros H. unfold app, serve, route, get_user. run_handler.
  present. by rewrite H.
Qed.

Lemma update_user_absent e user_id data db :
  db !! user_id = None ->
  app e (PUT_user user_id data) db = ((error_body "User not found", 404), db).
Proof.
  intros H. unfold app, serve, route, update_user. run_handler.
  rewrite bool_decide_eq_false_2; [done|]. rewrite H. by intros [? ?].
Qed.

(** X1. What create answers can be fetched: after a create of an object
    body with [name] and [email], a GET of the new id is answered 200 with
    the very record the create returned, and changes nothing. *)
Theorem created_user_can_be_fetched e e' (o : gmap string json) name email db :
  o !! "name" = Some name ->
  o !! "email" = Some email ->
  let created := app e (POST_users (JObj o)) db in
  created.1.2 = 201
  /\ member "id" created.1.1 = Some (JStr (env_uuid4 e))
  /\ app e' (GET_user (env_uuid4 e)) created.2 = ((created.1.1, 200), created.2).
Proof.
  intros Hn He created. subst created.
  pose proof (create_user_object e o name email db Hn He) as Hc.
  cbv zeta in Hc. rewrite Hc. cbn [fst snd].
  split; [done|]. split; [apply lookup_insert_eq|].
  apply get_user_present, lookup_insert_eq.
Qed.

Lemma created_user_can_be_fetched_witness :
  Sample.alice !! "name" = Some (JStr "A")
  /\ Sample.alice !! "email" = Some (JStr "a@x.com")
  /\ let created := app Sample.env0 (POST_users (JObj Sample.alice)) users_db in
     created.1.2 = 201
     /\ member "id" created.1.1 = Some (JStr (env_uuid4 Sample.env0))
     /\ app Sample.env1 (GET_user (env_uuid4 Sample.env0)) created.2
        = ((created.1.1, 200), created.2).
Proof.
  split; [reflexivity|]. split; [reflexivity|].
  exact (created_user_can_be_fetched Sample.env0 Sample.env1 Sample.alice
           (JStr "A") (JStr "a@x.com") users_db eq_refl eq_refl).
Defined.

(** X2. Create then delete is a round trip on the store: when the new id
    was not a key, deleting it is answered 200 with the created record and
    the store is again what it was before the create, one user fewer than
    in between. *)
Theorem create_then_delete_restores e e' (o : gmap string json) name email db :
  o !! "name" = Some name ->
  o !! "email" = Some email ->
  db !! env_uuid4 e = None ->
  let created := app e (POST_users (JObj o)) db in
  app e' (DELETE_user (env_uuid4 e)) created.2
    = ((JObj {[ "message" := JStr "User deleted successfully";
                "user" := created.1.1 ]}, 200), db)
  /\ size created.2 = S (size db).
Proof.
  intros Hn He Hfresh created. subst created.
  pose proof (create_user_object e o name email db Hn He) as Hc.
  cbv zeta in Hc. rewrite Hc. cbn [fst snd]. split.
  - rewrite (delete_user_present e' _ _ _ (lookup_insert_eq _ _ _)).
    by rewrite delete_insert_id.
  - by apply map_size_insert_None.
Qed.

Lemma create_then_delete_restores_witness :
  Sample.alice !! "name" = Some (JStr "A")
  /\ Sample.alice !! "email" = Some (JStr "a@x.com")
  /\ users_db !! env_uuid4 Sample.env0 = None
  /\ let created := app Sample.env0 (POST_users (JObj Sample.alice)) users_db in
     app Sample.env1 (DELETE_user (env_uuid4 Sample.env0)) created.2
       = ((JObj {[ "message" := JStr "User deleted successfully";
                   "user" := created.1.1 ]}, 200), users_db)
     /\ size created.2 = S (size users_db).
Proof.
  split; [reflexivity|]. split; [reflexivity|]. split; [reflexivity|].
  exact (create_then_delete_restores Sample.env0 Sample.env1 Sample.alice
           (JStr "A") (JStr "a@x.com") users_db eq_refl eq_refl eq_refl).
Defined.

(** X3. Deleting the same stored id twice: the first request removes the
    user, the second is answered 404 "User not found" and leaves the store
    as the first left it. *)
Theorem delete_twice e e' db user_id :
  is_Some (db !! user_id) ->
  (app e (DELETE_user user_id) db).1.2 = 200
  /\ app e' (DELETE_user user_id) (app e (DELETE_user user_id) db).2
     = ((error_body "User not found", 404), delete user_id db)
  /\ size (delete user_id db) = pred (size db).
Proof.
  intros [u Hu]. rewrite (delete_user_present e db user_id u Hu). cbn [fst snd].
  split; [done|]. split.
  - apply delete_user_absent, lookup_delete_eq.
  - rewrite map_size_delete_Some by eauto. done.
Qed.

Lemma delete_twice_witness :
  is_Some (users_db !! "2")
  /\ (app Sample.env0 (DELETE_user "2") users_db).1.2 = 200
  /\ app Sample.env1 (DELETE_user "2") (app Sample.env0 (DELETE_user "2") users_db).2
     = ((error_body "User not found", 404), delete "2" users_db)
  /\ size (delete "2" users_db) = pred (size users_db).
Proof.
  assert (H : is_Some (users_db !! "2")) by (eexists; reflexivity).
  split; [exact H|].
  exact (delete_twice Sample.env0 Sample.env1 users_db "2" H).
Defined.

(** *** Updates, whatever the body *)

Lemma existsb_is_str field (l : list json) :
  existsb (is_str field) l = true <-> JStr field ∈ l.
Proof.
  rewrite existsb_exists. split.
  - intros (x & Hin & Hx). apply list_elem_of_In in Hin.
    destruct x; try discriminate Hx. cbn [is_str] in Hx.
    apply String.eqb_eq in Hx. by subst.
  - intros Hin. exists (JStr field). split; [by apply list_elem_of_In|].
    cbn [is_str]. apply String.eqb_refl.
Qed.

(** Only an object lets the loop write: with any other body the store it
    leaves, raising or not, is the store it found. *)
Lemma update_fields_non_object fields user_id data db :
  (forall o, data <> JObj o) ->
  (update_fields fields user_id data db).2 = db.
Proof.
  intros Hdata. induction fields as [|f fields IH]; [done|].
  cbn [update_fields]. run_handler.
  destruct data as [|b|n|s|l|o]; try done; [| |by destruct (Hdata o)].
  - destruct (contains f s); [done|].
    by destruct (update_fields fields user_id (JStr s) db) as [[] ?].
  - destruct (existsb (is_str f) l); [done|].
    by destruct (update_fields fields user_id (JArr l) db) as [[] ?].
Qed.

(** The loop as a function on the record of [user_id]: it leaves alone
    what is not in [fields] and removes nothing. *)
Lemma update_fields_alter fields user_id data db :
  exists g : gmap string json -> gmap string json,
    (update_fields fields user_id data db).2 = alter g user_id db
    /\ (forall u k, k ∉ fields -> g u !! k = u !! k)
    /\ (forall u k, is_Some (u !! k) -> is_Some (g u !! k)).
Proof.
  assert (Hcase : (exists o, data = JObj o) \/ forall o, data <> JObj o)
    by (destruct data; eauto).
  destruct Hcase as [[o ->]|Hno].
  - exists (overwrite o fields). rewrite update_fields_obj. cbn [snd].
    split; [done|]. split.
    + intros u k Hk. rewrite overwrite_lookup. by rewrite decide_False.
    + intros u k Hin. rewrite overwrite_lookup.
      destruct (decide _); [|done]. by destruct (o !! k).
  - exists id. rewrite update_fields_non_object by done.
    split; [|done]. symmetry. by apply alter_id.
Qed.

Lemma update_user_alters e user_id data db :
  exists g : gmap string json -> gmap string json,
    (app e (PUT_user user_id data) db).2 = alter g user_id db
    /\ (forall u, g u !! "id" = u !! "id")
    /\ (forall u k, is_Some (u !! k) -> is_Some (g u !! k)).
Proof.
  assert (Hid : exists g : gmap string json -> gmap string json,
            db = alter g user_id db
            /\ (forall u, g u !! "id" = u !! "id")
            /\ (forall u k, is_Some (u !! k) -> is_Some (g u !! k))).
  { exists id. split; [|done]. symmetry. by apply alter_id. }
  assert (Hfield : "id" ∉ updatable_fields).
  { unfold updatable_fields.
    by intros [[=]|[[=]|[[=]|[]%elem_of_nil]%elem_of_cons]%elem_of_cons]%elem_of_cons. }
  unfold app, serve. cbn [route]. unfold update_user. run_handler.
  destruct (db !! user_id) as [u|] eqn:Hu; [present|absent; exact Hid].
  run_handler. destruct (truthy data); [|exact Hid].
  destruct (update_fields_alter updatable_fields user_id data db)
    as (g & Hg & Hframe & Hmono).
  destruct (update_fields updatable_fields user_id data db) as [[[]|] db'];
    cbn [snd] in Hg; subst db'.
  - rewrite alter_alter_eq, lookup_alter_eq, Hu.
    cbn [fmap option_fmap option_map snd].
    eexists. split; [done|]. unfold compose. split.
    + intros u0. rewrite lookup_insert_ne by done. by apply Hframe.
    + intros u0 k Hk. apply lookup_insert_is_Some'. right. by apply Hmono.
  - cbn [snd]. exists g. split; [done|]. split; [|done].
    intros u0. by apply Hframe.
Qed.

(** X4. An update touches one record at most: for every body, the
    records of the other users are as before, no key appears or
    disappears, and the count is the same. *)
Theorem update_touches_one_record e user_id data db :
  let db' := (app e (PUT_user user_id data) db).2 in
  (forall k, k <> user_id -> db' !! k = db !! k)
  /\ (forall k, is_Some (db' !! k) <-> is_Some (db !! k))
  /\ size db' = size db.
Proof.
  intros db'. subst db'.
  destruct (update_user_alters e user_id data db) as (g & -> & _ & _).
  repeat split.
  - intros k Hk. by apply lookup_alter_ne.
  - rewrite lookup_alter_is_Some. done.
  - rewrite lookup_alter_is_Some. done.
  - by rewrite <- !size_dom, dom_alter_L.
Qed.

(** X5. An update writes all or nothing: whenever the answer is not 200,
    be it 404, 400 or 500, the store is what it was. *)
Theorem update_user_rejected_frame e user_id data db :
  (app e (PUT_user user_id data) db).1.2 <> 200 ->
  (app e (PUT_user user_id data) db).2 = db.
Proof.
  destruct (db !! user_id) as [u|] eqn:Hu;
    [|by rewrite update_user_absent].
  destruct (truthy data) eqn:Ht;
    [|by rewrite update_user_falsy by eauto].
  assert (Hcase : (exists o, data = JObj o) \/ forall o, data <> JObj o)
    by (destruct data; eauto).
  destruct Hcase as [[o ->]|Hno].
  - assert (Ho : o ≠ ∅).
    { rewrite truthy_obj in Ht. by apply bool_decide_eq_true in Ht. }
    pose proof (update_user_object e user_id o db u Hu Ho) as Hup.
    cbv zeta in Hup. rewrite Hup. cbn [fst snd]. done.
  - pose proof (update_fields_non_object updatable_fields user_id data db Hno)
      as Hsame.
    unfold app, serve. cbn [route]. unfold update_user. run_handler.
    present. run_handler. rewrite Ht.
    destruct (update_fields updatable_fields user_id data db) as [[[]|] db'];
      cbn [snd] in Hsame; subst db'; [|done].
    rewrite lookup_alter_eq, Hu. cbn [fmap option_fmap option_map fst snd]. done.
Qed.

Lemma update_user_rejected_frame_witness :
  (app Sample.env1 (PUT_user "1" (JArr [JStr "name"])) users_db).1
    = internal_error
  /\ (app Sample.env1 (PUT_user "1" (JArr [JStr "name"])) users_db).1.2 <> 200
  /\ (app Sample.env1 (PUT_user "1" (JArr [JStr "name"])) users_db).2 = users_db.
Proof.
  assert (H : (app Sample.env1 (PUT_user "1" (JArr [JStr "name"])) users_db).1.2
              <> 200) by discriminate.
  split; [reflexivity|]. split; [exact H|].
  exact (update_user_rejected_frame Sample.env1 "1" (JArr [JStr "name"])
           users_db H).
Defined.

(** X8. The id is looked up before the body is: an update is answered
    404 exactly when the id is not stored, whatever the body, an empty or
    a malformed one too. *)
Theorem update_user_404_iff_absent e user_id data db :
  (app e (PUT_user user_id data) db).1.2 = 404 <-> db !! user_id = None.
Proof.
  split; [|intros H; by rewrite update_user_absent].
  destruct (db !! user_id) as [u|] eqn:Hu; [|done].
  unfold app, serve. cbn [route]. unfold update_user. run_handler.
  present. run_handler.
  repeat case_match; unfold internal_error in *; simplify_eq; cbv [fst snd];
    discriminate.
Qed.

(** X6. A truthy body that is not an object and names none of [name],
    [email], [role] is accepted: on a stored id, a non-empty array without
    those three strings is answered 200, and the one thing written is
    [updated_at]. *)
Theorem update_unrelated_array_stamps e user_id (l : list json) db u :
  db !! user_id = Some u ->
  l <> [] ->
  (forall field, field ∈ updatable_fields -> JStr field ∉ l) ->
  let u' := <["updated_at" := JStr (env_utcnow e)]> u in
  app e (PUT_user user_id (JArr l)) db = ((JObj u', 200), <[user_id := u']> db).
Proof.
  intros Hu Hl Hnone u'.
  assert (Hin : forall field, field ∈ updatable_fields ->
                  existsb (is_str field) l = false).
  { intros field Hf. apply not_true_is_false. rewrite existsb_is_str.
    by apply Hnone. }
  unfold app, serve. cbn [route]. unfold update_user. run_handler.
  assert (Ht : truthy (JArr l) = true).
  { unfold truthy. by rewrite bool_decide_eq_false_2. }
  present. run_handler. rewrite Ht.
  cbn [update_fields updatable_fields]. run_handler.
  rewrite !Hin by (unfold updatable_fields; repeat constructor).
  run_handler. rewrite lookup_alter_eq, Hu. cbn [fmap option_fmap option_map].
  by rewrite (alter_alt_Some _ _ _ _ Hu).
Qed.

Lemma update_unrelated_array_stamps_witness :
  users_db !! "1" = Some Sample.john
  /\ [JNum 1] <> []
  /\ (forall field, field ∈ updatable_fields -> JStr field ∉ [JNum 1])
  /\ let u' := <["updated_at" := JStr (env_utcnow Sample.env1)]> Sample.john in
     app Sample.env1 (PUT_user "1" (JArr [JNum 1])) users_db
       = ((JObj u', 200), <["1" := u']> users_db).
Proof.
  assert (H1 : users_db !! "1" = Some Sample.john) by reflexivity.
  assert (H2 : [JNum 1] <> []) by discriminate.
  assert (H3 : forall field, field ∈ updatable_fields -> JStr field ∉ [JNum 1]).
  { intros field _ [Heq|Hin]%elem_of_cons; [discriminate Heq|].
    by apply elem_of_nil in Hin. }
  split; [exact H1|]. split; [exact H2|]. split; [exact H3|].
  exact (update_unrelated_array_stamps Sample.env1 "1" [JNum 1] users_db
           Sample.john H1 H2 H3).
Defined.

(** X7. For a fixed clock reading an update with an object body is
    idempotent: sending it a second time gives the same answer and the
    same store as sending it once. *)
Theorem update_user_idempotent e user_id (o : gmap string json) db :
  is_Some (db !! user_id) ->
  o ≠ ∅ ->
  app e (PUT_user user_id (JObj o)) (app e (PUT_user user_id (JObj o)) db).2
    = app e (PUT_user user_id (JObj o)) (db).
Proof.
  intros [u Hu] Ho.
  pose proof (update_user_object e user_id o db u Hu Ho) as H1.
  cbv zeta in H1. rewrite H1. cbn [snd].
  set (u' := <["updated_at" := JStr (env_utcnow e)]> (overwrite o updatable_fields u)).
  pose proof (update_user_object e user_id o (<[user_id := u']> db) u'
                (lookup_insert_eq _ _ _) Ho) as H2.
  cbv zeta in H2. rewrite H2, insert_insert_eq.
  assert (Hsame : <["updated_at" := JStr (env_utcnow e)]>
                    (overwrite o updatable_fields u') = u').
  { apply map_eq. intros k. subst u'.
    destruct (decide (k = "updated_at")) as [->|Hk].
    - by rewrite !lookup_insert_eq.
    - rewrite lookup_insert_ne by done. rewrite (overwrite_lookup o _ (<[_:=_]> _)).
      rewrite lookup_insert_ne by done. rewrite overwrite_lookup.
      destruct (decide (k ∈ updatable_fields)); [|done]. by destruct (o !! k). }
  by rewrite Hsame.
Qed.

Lemma update_user_idempotent_witness :
  is_Some (users_db !! "1")
  /\ ({[ "role" := JStr "moderator" ]} : gmap string json) ≠ ∅
  /\ app Sample.env1 (PUT_user "1" (JObj {[ "role" := JStr "moderator" ]}))
       (app Sample.env1 (PUT_user "1" (JObj {[ "role" := JStr "moderator" ]}))
            users_db).2
     = app Sample.env1 (PUT_user "1" (JObj {[ "role" := JStr "moderator" ]}))
           users_db.
Proof.
  assert (H1 : is_Some (users_db !! "1")) by (eexists; reflexivity).
  assert (H2 : ({[ "role" := JStr "moderator" ]} : gmap string json) ≠ ∅).
  { intros H. apply (f_equal (fun m : gmap string json => m !! "role")) in H.
    discriminate H. }
  split; [exact H1|]. split; [exact H2|].
  exact (update_user_idempotent Sample.env1 "1" _ users_db H1 H2).
Defined.

(** *** Creates, whatever the body *)

(** X9. Only an object with [name] and [email] creates a user: a create
    answered 201 had such a body. *)
Theorem created_needs_object e data db :
  (app e (POST_users data) db).1.2 = 201 ->
  exists (o : gmap string json) name email,
    data = JObj o /\ o !! "name" = Some name /\ o !! "email" = Some email.
Proof.
  unfold app, serve. cbn [route]. unfold create_user.
  destruct (truthy data); cbn [negb]; [|cbv [fst snd internal_error]; discriminate].
  run_handler.
  destruct (first_missing required_fields data) as [[f|]|];
    try (cbv [fst snd internal_error]; discriminate).
  destruct data; try (cbv [fst snd internal_error]; discriminate).
  destruct (o !! "name") as [name|] eqn:Hn;
    [|cbv [fst snd internal_error]; discriminate].
  destruct (o !! "email") as [email|] eqn:He;
    [|cbv [fst snd internal_error]; discriminate].
  intros _. by exists o, name, email.
Qed.

Lemma created_needs_object_witness :
  (app Sample.env0 (POST_users (JObj Sample.alice)) users_db).1.2 = 201
  /\ exists (o : gmap string json) name email,
       JObj Sample.alice = JObj o
       /\ o !! "name" = Some name /\ o !! "email" = Some email.
Proof.
  assert (H : (app Sample.env0 (POST_users (JObj Sample.alice)) users_db).1.2
              = 201) by reflexivity.
  split; [exact H|].
  exact (created_needs_object Sample.env0 (JObj Sample.alice) users_db H).
Defined.

(** X10. A create writes all or nothing: an answer other than 201 is a
    400 or a 500, and the store is what it was, whatever the body. *)
Theorem create_user_all_or_nothing e data db :
  (app e (POST_users data) db).1.2 <> 201 ->
  (app e (POST_users data) db).2 = db
  /\ ((app e (POST_users data) db).1.2 = 400
      \/ (app e (POST_users data) db).1.2 = 500).
Proof.
  intros Hst. split; [by apply create_user_rejected_frame|].
  revert Hst. unfold app, serve. cbn [route]. unfold create_user. run_handler.
  repeat case_match; unfold internal_error in *; simplify_eq; cbv [fst snd];
    intros; (tauto || done).
Qed.

Lemma create_user_all_or_nothing_witness :
  (app Sample.env0 (POST_users (JStr "my name and email")) users_db).1.2 <> 201
  /\ (app Sample.env0 (POST_users (JStr "my name and email")) users_db).2
     = users_db
  /\ ((app Sample.env0 (POST_users (JStr "my name and email")) users_db).1.2 = 400
      \/ (app Sample.env0 (POST_users (JStr "my name and email")) users_db).1.2
         = 500).
Proof.
  assert (H : (app Sample.env0 (POST_users (JStr "my name and email"))
                   users_db).1.2 <> 201) by discriminate.
  split; [exact H|].
  exact (create_user_all_or_nothing Sample.env0 (JStr "my name and email")
           users_db H).
Defined.

(** X11. A body that is not an object can pass the field check and then
    fail: an array that lists the strings "name" and "email" is answered
    500 "Internal server error", and the store is untouched. *)
Theorem create_array_body_raises e (l : list json) db :
  JStr "name" ∈ l ->
  JStr "email" ∈ l ->
  app e (POST_users (JArr l)) db = (internal_error, db).
Proof.
  intros Hn He.
  assert (Ht : truthy (JArr l) = true).
  { unfold truthy. rewrite bool_decide_eq_false_2; [done|].
    intros ->. by apply elem_of_nil in Hn. }
  unfold app, serve. cbn [route]. unfold create_user. rewrite Ht.
  cbn [first_missing required_fields]. run_handler.
  rewrite !(proj2 (existsb_is_str _ _)) by done. done.
Qed.

Lemma create_array_body_raises_witness :
  JStr "name" ∈ [JStr "name"; JStr "email"]
  /\ JStr "email" ∈ [JStr "name"; JStr "email"]
  /\ app Sample.env0 (POST_users (JArr [JStr "name"; JStr "email"])) users_db
     = (internal_error, users_db).
Proof.
  assert (H1 : JStr "name" ∈ [JStr "name"; JStr "email"])
    by apply list_elem_of_here.
  assert (H2 : JStr "email" ∈ [JStr "name"; JStr "email"])
    by apply list_elem_of_further, list_elem_of_here.
  split; [exact H1|]. split; [exact H2|].
  exact (create_array_body_raises Sample.env0 [JStr "name"; JStr "email"]
           users_db H1 H2).
Defined.

(** *** Every request *)

(** X12. Every answer of 400 or more that the service's own code gives,
    to a request on a route and method it declares whose body, if any,
    parses, or to a path no route matches, has the body [{"error": msg}]
    for some text [msg]. The pages Flask gives on its own (405, and 400 or
    415 for a body it cannot parse) are outside [request]. *)
Theorem error_replies_carry_error e rq db :
  400 <= (app e rq db).1.2 ->
  exists msg, (app e rq db).1.1 = error_body msg.
Proof.
  unfold app, serve.
  destruct rq as [| |uid|data|uid data|uid| |]; cbn [route].
  - cbv [health_check ret fst snd]. lia.
  - cbv [get_users fst snd]. lia.
  - unfold get_user. run_handler.
    repeat case_match; unfold internal_error in *; simplify_eq; cbv [fst snd];
      (lia || eauto).
  - unfold create_user. run_handler.
    repeat case_match; unfold internal_error in *; simplify_eq; cbv [fst snd];
      (lia || eauto).
  - unfold update_user. run_handler.
    repeat case_match; unfold internal_error in *; simplify_eq; cbv [fst snd];
      (lia || eauto).
  - unfold delete_user. run_handler.
    repeat case_match; unfold internal_error in *; simplify_eq; cbv [fst snd];
      (lia || eauto).
  - cbv [get_stats db_len mbind M_bind ret fst snd]. lia.
  - cbv [ret not_found fst snd]. eauto.
Qed.

Lemma error_replies_carry_error_witness :
  400 <= (app Sample.env0 (PUT_user "9" JNull) users_db).1.2
  /\ exists msg,
       (app Sample.env0 (PUT_user "9" JNull) users_db).1.1 = error_body msg.
Proof.
  assert (H : 400 <= (app Sample.env0 (PUT_user "9" JNull) users_db).1.2)
    by (apply (bool_decide_unpack _); vm_compute; exact I).
  split; [exact H|].
  exact (error_replies_carry_error Sample.env0 (PUT_user "9" JNull) users_db H).
Defined.

(** X13. The routes that only read leave the store as it is. *)
Theorem read_only_routes_keep_store e rq db :
  read_only rq = true -> (app e rq db).2 = db.
Proof.
  destruct rq as [| |uid|data|uid data|uid| |]; try discriminate; intros _;
    try reflexivity.
  destruct (db !! uid) as [u|] eqn:Hu.
  - by rewrite (get_user_present e db uid u).
  - by rewrite get_user_absent.
Qed.

Lemma read_only_routes_keep_store_witness :
  read_only (GET_user "1") = true
  /\ (app Sample.env0 (GET_user "1") users_db).2 = users_db.
Proof.
  split; [reflexivity|].
  exact (read_only_routes_keep_store Sample.env0 (GET_user "1") users_db eq_refl).
Defined.

(** X14. The listing is the store: GET /api/users answers 200 with one
    entry per stored user, each entry a stored record and each stored
    record an entry, and its [count], like [total_users] of GET /api/stats,
    is the number of stored users. *)
Theorem listing_matches_store e e' db :
  exists l,
    (app e GET_users db).1
      = (JObj {[ "users" := JArr l; "count" := JNum (Z.of_nat (size db)) ]}, 200)
    /\ length l = size db
    /\ (forall x, x ∈ l <-> exists k u, db !! k = Some u /\ x = JObj u)
    /\ member "total_users" (app e' GET_stats db).1.1
       = Some (JNum (Z.of_nat (size db))).
Proof.
  exists (JObj <$> (map_to_list db).*2). split; [reflexivity|]. split; [|split].
  - by rewrite !length_fmap, length_map_to_list.
  - intros x. rewrite list_elem_of_fmap. split.
    + intros (u & -> & Hin). apply list_elem_of_fmap in Hin as ([k u'] & -> & Hin).
      apply elem_of_map_to_list in Hin. by exists k, u'.
    + intros (k & u & Hu & ->). exists u. split; [done|].
      apply list_elem_of_fmap. exists (k, u). split; [done|].
      by apply elem_of_map_to_list.
  - unfold app, serve. cbn [route]. unfold get_stats, db_len.
    cbv [mbind M_bind ret fst snd member]. apply lookup_insert_eq.
Qed.

(** *** Stored records *)

Lemma app_store_shape e rq db :
  (app e rq db).2 = db
  \/ (exists new_user,
        (app e rq db).2 = <[env_uuid4 e := new_user]> db
        /\ complete_record (env_uuid4 e) new_user)
  \/ (exists user_id (g : gmap string json -> gmap string json),
        (app e rq db).2 = alter g user_id db
        /\ (forall u, g u !! "id" = u !! "id")
        /\ (forall u k, is_Some (u !! k) -> is_Some (g u !! k)))
  \/ (exists user_id, (app e rq db).2 = delete user_id db).
Proof.
  destruct rq as [| |uid|data|uid data|uid| |]; try (left; reflexivity).
  - left. destruct (db !! uid) as [u|] eqn:Hu.
    + by rewrite (get_user_present e db uid u).
    + by rewrite get_user_absent.
  - unfold app, serve. cbn [route]. unfold create_user.
    destruct (truthy data); cbn [negb]; [|by left]. run_handler.
    destruct (first_missing required_fields data) as [[f|]|]; try by left.
    destruct data; try by left.
    destruct (o !! "name") as [name|]; [|by left].
    destruct (o !! "email") as [email|]; [|by left].
    cbn [snd]. right. left. eexists. split; [done|].
    unfold complete_record.
    repeat (rewrite lookup_insert_eq || rewrite lookup_insert_ne by done).
    rewrite lookup_singleton_eq. eauto 10.
  - right. right. left. exists uid. apply update_user_alters.
  - destruct (db !! uid) as [u|] eqn:Hu.
    + right. right. right. exists uid. by rewrite (delete_user_present e db uid u).
    + left. by rewrite delete_user_absent.
Qed.

Lemma users_db_complete k u :
  users_db !! k = Some u -> complete_record k u.
Proof.
  unfold users_db.
  intros [[<- <-]|[_ [<- <-]%lookup_singleton_Some]]%lookup_insert_Some;
    unfold complete_record;
    repeat (rewrite lookup_insert_eq || rewrite lookup_insert_ne by done);
    rewrite lookup_singleton_eq; eauto 10.
Qed.

Lemma app_preserves_complete e rq db :
  (forall k u, db !! k = Some u -> complete_record k u) ->
  forall k u, (app e rq db).2 !! k = Some u -> complete_record k u.
Proof.
  intros IH k u.
  destruct (app_store_shape e rq db)
    as [->|[(nu & -> & Hnu)|[(uid & g & -> & Hid & Hmono)|[uid ->]]]].
  - apply IH.
  - intros [[<- <-]|[_ ?]]%lookup_insert_Some; [done|by apply IH].
  - rewrite lookup_alter. destruct (decide (uid = k)) as [->|]; [|apply IH].
    destruct (db !! k) as [u0|] eqn:Hk; [|done]. intros [= <-].
    destruct (IH k u0 Hk) as (H1 & H2 & H3 & H4 & H5).
    unfold complete_record. rewrite Hid. eauto 10.
  - intros [_ ?]%lookup_delete_Some. by apply IH.
Qed.

(** X15. In every store the service can be in, each record is stored
    under its own [id] and has a [name], an [email], a [role] and a
    [created_at]. *)
Theorem reachable_records_complete db k u :
  reachable db -> db !! k = Some u -> complete_record k u.
Proof.
  intros Hr. revert k u. induction Hr as [|e rq db _ IH].
  - apply users_db_complete.
  - by apply app_preserves_complete.
Qed.

Lemma reachable_records_complete_witness :
  reachable (run Sample.trace0 users_db)
  /\ (exists u, run Sample.trace0 users_db !! "1" = Some u)
  /\ forall u, run Sample.trace0 users_db !! "1" = Some u -> complete_record "1" u.
Proof.
  assert (H : reachable (run Sample.trace0 users_db))
    by (repeat apply reachable_step; apply reachable_init).
  split; [exact H|].
  split; [apply (bool_decide_unpack _); vm_compute; exact I|].
  intros u. exact (reachable_records_complete _ "1" u H).
Defined.




(** ** Facts about the Dashboard Service *)

Import Frontend.

(** *** The helper *)

Lemma raise_for_status_error r :
  400 <= status_code r < 600 ->
  raise_for_status r
    = Some (http_error_text (status_code r) (reason r) (url r)).
Proof.
  intros [Hlo Hhi]. unfold raise_for_status, http_error_text.
  destruct (Z.ltb_spec (status_code r) 500).
  - rewrite (proj2 (Z.leb_le _ _) Hlo). reflexivity.
  - destruct (Z.leb_spec 400 (status_code r)); [|lia].
    cbn [andb]. rewrite (proj2 (Z.leb_le 500 _)) by lia.
    rewrite (proj2 (Z.ltb_lt _ 600)) by lia. reflexivity.
Qed.

Lemma call_backend_api_sends URL net endpoint method data :
  method ∈ ["GET"; "POST"; "DELETE"] ->
  call_backend_api URL net endpoint method data =
    match net method (URL +:+ endpoint)
              (if String.eqb method "POST" then data else None) with
    | RequestException msg => Ret (error_body msg, 500)
    | Response r =>
        match raise_for_status r with
        | Some msg => Ret (error_body msg, 500)
        | None =>
            match body r with
            | Json j => Ret (j, status_code r)
            | NotJson msg => Ret (error_body msg, 500)
            end
        end
    end.
Proof.
  intros Hm.
  repeat (apply elem_of_cons in Hm as [->|Hm]); [..|by apply elem_of_nil in Hm];
    reflexivity.
Qed.

(** An error status is reported as the text of the [HTTPError] and 500,
    whatever the body of the response. *)
Lemma call_backend_api_http_error URL net endpoint method data r :
  method ∈ ["GET"; "POST"; "DELETE"] ->
  net method (URL +:+ endpoint)
      (if String.eqb method "POST" then data else None) = Response r ->
  400 <= status_code r < 600 ->
  call_backend_api URL net endpoint method data
    = Ret (error_body (http_error_text (status_code r) (reason r) (url r)), 500).
Proof.
  intros Hm Hnet Hst. rewrite call_backend_api_sends, Hnet by done.
  by rewrite raise_for_status_error.
Qed.

Lemma call_backend_api_request_exception URL net endpoint method data msg :
  method ∈ ["GET"; "POST"; "DELETE"] ->
  net method (URL +:+ endpoint)
      (if String.eqb method "POST" then data else None) = RequestException msg ->
  call_backend_api URL net endpoint method data = Ret (error_body msg, 500).
Proof. intros Hm Hnet. by rewrite call_backend_api_sends, Hnet. Qed.

(** *** The dashboard page *)

(** C7. When the three calls of a dashboard render each come back from
    the helper as an error payload with status 500, the page is still
    rendered and answered 200: no users table, "N/A" in the three stat
    cards, and the backend shown offline. *)
Theorem dashboard_renders_when_backend_fails URL net args now :
  call_failed URL net "/api/users" ->
  call_failed URL net "/api/stats" ->
  call_failed URL net "/health" ->
  exists p,
    serve (dashboard URL net args now) = Html 200 p
    /\ status_of (serve (dashboard URL net args now)) = 200
    /\ pg_users p = None
    /\ pg_total_users p = Value (JStr "N/A")
    /\ pg_environment p = Value (JStr "N/A")
    /\ pg_version p = Value (JStr "N/A")
    /\ pg_backend_status p = "🔴 Offline".
Proof.
  intros [m1 H1] [m2 H2] [m3 H3]. unfold dashboard. rewrite H1, H2, H3.
  eexists. repeat split.
Qed.

Lemma dashboard_renders_when_backend_fails_witness :
  call_failed Sample.localhost Sample.net_down "/api/users"
  /\ call_failed Sample.localhost Sample.net_down "/api/stats"
  /\ call_failed Sample.localhost Sample.net_down "/health"
  /\ exists p,
       serve (dashboard Sample.localhost Sample.net_down ∅ "2025-01-03 12:00:00")
         = Html 200 p
       /\ status_of (serve (dashboard Sample.localhost Sample.net_down ∅
                              "2025-01-03 12:00:00")) = 200
       /\ pg_users p = None
       /\ pg_total_users p = Value (JStr "N/A")
       /\ pg_environment p = Value (JStr "N/A")
       /\ pg_version p = Value (JStr "N/A")
       /\ pg_backend_status p = "🔴 Offline".
Proof.
  assert (H : forall endpoint,
            call_failed Sample.localhost Sample.net_down endpoint)
    by (intros endpoint; exists "Connection refused"; reflexivity).
  split; [apply H|]. split; [apply H|]. split; [apply H|].
  exact (dashboard_renders_when_backend_fails Sample.localhost Sample.net_down ∅
           "2025-01-03 12:00:00" (H _) (H _) (H _)).
Defined.

(** *** Relaying a create *)

(** C8, as the handler has it. With [name], [email] and [role] in the
    form: when the helper reports 201 the handler redirects to [/] with
    the success message; when it reports an object with another status,
    the handler redirects with the danger message "Failed to add user: "
    followed by the [error] member of that object, or by "Unknown error"
    when it has none. For a backend answer with an error status that
    member is the text of the HTTP exception (status, reason phrase, URL),
    and for a failed exchange it is the text of that failure. *)
Theorem add_user_relays_helper_error URL py_repr net form name email role :
  form !! "name" = Some name ->
  form !! "email" = Some email ->
  form !! "role" = Some role ->
  let user_data :=
    JObj {[ "name" := JStr name; "email" := JStr email; "role" := JStr role ]} in
  let added :=
    redirect_dashboard ("User '" +:+ name +:+ "' added successfully!") "success" in
  let failed error :=
    redirect_dashboard ("Failed to add user: " +:+ py_str py_repr error) "danger" in
  (forall response,
     call_backend_api URL net "/api/users" "POST" (Some user_data)
       = Ret (response, 201) ->
     serve (add_user URL py_repr net form) = added)
  /\ (forall (o : gmap string json) status,
        call_backend_api URL net "/api/users" "POST" (Some user_data)
          = Ret (JObj o, status) ->
        status <> 201 ->
        serve (add_user URL py_repr net form)
          = failed (default (JStr "Unknown error") (o !! "error")))
  /\ (forall r,
        net "POST" (URL +:+ "/api/users") (Some user_data) = Response r ->
        400 <= status_code r < 600 ->
        serve (add_user URL py_repr net form)
          = failed (JStr (http_error_text (status_code r) (reason r) (url r))))
  /\ (forall msg,
        net "POST" (URL +:+ "/api/users") (Some user_data)
          = RequestException msg ->
        serve (add_user URL py_repr net form) = failed (JStr msg)).
Proof.
  intros Hn He Hr user_data added failed.
  assert (Hpost : "POST" ∈ ["GET"; "POST"; "DELETE"]) by repeat constructor.
  assert (Hobj : forall (o : gmap string json) status,
            call_backend_api URL net "/api/users" "POST" (Some user_data)
              = Ret (JObj o, status) ->
            status <> 201 ->
            serve (add_user URL py_repr net form)
              = failed (default (JStr "Unknown error") (o !! "error"))).
  { intros o status Hcall Hst. unfold add_user, form_getitem.
    rewrite Hn, He, Hr. cbn [mbind res_bind]. fold user_data. rewrite Hcall.
    cbn [mbind res_bind]. rewrite (proj2 (Z.eqb_neq _ _) Hst). reflexivity. }
  repeat split.
  - intros response Hcall. unfold add_user, form_getitem.
    rewrite Hn, He, Hr. cbn [mbind res_bind]. fold user_data. rewrite Hcall.
    reflexivity.
  - exact Hobj.
  - intros r Hnet Hst.
    pose proof (call_backend_api_http_error URL net _ "POST" _ r Hpost Hnet Hst)
      as Hcall.
    rewrite (Hobj _ 500 Hcall) by lia. by rewrite lookup_singleton_eq.
  - intros msg Hnet.
    pose proof (call_backend_api_request_exception URL net _ "POST" _ msg
                  Hpost Hnet) as Hcall.
    rewrite (Hobj _ 500 Hcall) by lia. by rewrite lookup_singleton_eq.
Qed.

Lemma add_user_relays_helper_error_witness :
  Sample.form0 !! "name" = Some "A"
  /\ Sample.form0 !! "email" = Some "a@x.com"
  /\ Sample.form0 !! "role" = Some "user"
  /\ serve (add_user Sample.localhost Sample.no_repr Sample.net_down Sample.form0)
     = redirect_dashboard "Failed to add user: Connection refused" "danger".
Proof.
  split; [reflexivity|]. split; [reflexivity|]. split; [reflexivity|].
  destruct (add_user_relays_helper_error Sample.localhost Sample.no_repr
              Sample.net_down Sample.form0 "A" "a@x.com" "user"
              eq_refl eq_refl eq_refl) as (_ & _ & _ & H).
  exact (H "Connection refused" eq_refl).
Defined.

(** C8, as stated, fails when the backend answers 400 with
    [{"error": "Missing required field: name"}]: the danger message carries
    the text of the HTTP exception, in which the backend's error string
    does not occur. *)
Lemma add_user_hides_backend_error :
  let net := backend_answers (error_body "Missing required field: name", 400)
                             "BAD REQUEST" in
  let message :=
    "Failed to add user: 400 Client Error: BAD REQUEST for url: http://localhost:8086/api/users" in
  serve (add_user Sample.localhost Sample.no_repr net Sample.form0)
    = RedirectTo "/" [("message", message); ("type", "danger")]
  /\ contains "Missing required field: name" message = false.
Proof. split; vm_compute; reflexivity. Qed.

(** *** Backend rejections *)

(** C10. Whatever request the User Store answers with a status outside
    200..299, the helper reports the text of the HTTP exception and 500:
    neither the status nor the body of the answer is in what it returns.
    [add_user] and [delete_user] then redirect with the danger message made
    of that text. *)
Theorem backend_rejection_collapsed URL py_repr e rq db reason_phrase
  form name email role user_id :
  let r := (Backend.app e rq db).1 in
  ~ (200 <= r.2 < 300) ->
  form !! "name" = Some name ->
  form !! "email" = Some email ->
  form !! "role" = Some role ->
  let net := backend_answers r reason_phrase in
  let text endpoint := http_error_text r.2 reason_phrase (URL +:+ endpoint) in
  (forall endpoint method data,
     method ∈ ["GET"; "POST"; "DELETE"] ->
     call_backend_api URL net endpoint method data
       = Ret (error_body (text endpoint), 500))
  /\ serve (add_user URL py_repr net form)
     = redirect_dashboard ("Failed to add user: " +:+ text "/api/users") "danger"
  /\ serve (delete_user URL py_repr net user_id)
     = redirect_dashboard
         ("Failed to delete user: " +:+ text ("/api/users/" +:+ user_id))
         "danger".
Proof.
  intros r Hrej Hn He Hr net text.
  assert (Hst : 400 <= r.2 < 600).
  { pose proof (app_status e rq db) as Hs. cbv zeta in Hs. fold r in Hs. lia. }
  assert (Hcall : forall endpoint method data,
            method ∈ ["GET"; "POST"; "DELETE"] ->
            call_backend_api URL net endpoint method data
              = Ret (error_body (text endpoint), 500)).
  { intros endpoint method data Hm.
    by rewrite (call_backend_api_http_error URL net endpoint method data _
                  Hm eq_refl). }
  repeat split.
  - exact Hcall.
  - unfold add_user, form_getitem. rewrite Hn, He, Hr. cbn [mbind res_bind].
    rewrite Hcall by repeat constructor. unfold error_body.
    cbn [mbind res_bind Z.eqb Pos.eqb get]. by rewrite lookup_singleton_eq.
  - unfold delete_user. rewrite Hcall by repeat constructor. unfold error_body.
    cbn [mbind res_bind Z.eqb Pos.eqb get]. by rewrite lookup_singleton_eq.
Qed.

Lemma backend_rejection_collapsed_witness :
  (Backend.app Sample.env0 (Backend.DELETE_user "3") Backend.users_db).1
    = (error_body "User not found", 404)
  /\ ~ (200 <= 404 < 300)
  /\ Sample.form0 !! "name" = Some "A"
  /\ Sample.form0 !! "email" = Some "a@x.com"
  /\ Sample.form0 !! "role" = Some "user"
  /\ call_backend_api Sample.localhost
       (backend_answers (error_body "User not found", 404) "NOT FOUND")
       "/api/users/3" "DELETE" None
     = Ret (error_body
              "404 Client Error: NOT FOUND for url: http://localhost:8086/api/users/3",
            500)
  /\ serve (delete_user Sample.localhost Sample.no_repr
              (backend_answers (error_body "User not found", 404) "NOT FOUND") "3")
     = redirect_dashboard
         "Failed to delete user: 404 Client Error: NOT FOUND for url: http://localhost:8086/api/users/3"
         "danger".
Proof.
  assert (Hrej : ~ (200 <= 404 < 300)) by lia.
  split; [reflexivity|]. split; [exact Hrej|].
  split; [reflexivity|]. split; [reflexivity|]. split; [reflexivity|].
  destruct (backend_rejection_collapsed Sample.localhost Sample.no_repr
              Sample.env0 (Backend.DELETE_user "3") Backend.users_db "NOT FOUND"
              Sample.form0 "A" "a@x.com" "user" "3"
              Hrej eq_refl eq_refl eq_refl) as (Hcall & _ & Hdel).
  split; [|exact Hdel].
  exact (Hcall "/api/users/3" "DELETE" None
           (list_elem_of_further _ _ _ (list_elem_of_further _ _ _
              (list_elem_of_here _ _)))).
Defined.

(** ** More about the Dashboard Service *)

(** *** The helper *)

Lemma raise_for_status_ok r :
  ~ (400 <= status_code r < 600) -> raise_for_status r = None.
Proof.
  intros Hst. unfold raise_for_status.
  destruct (Z.leb_spec 400 (status_code r)), (Z.ltb_spec (status_code r) 500);
    cbn [andb]; try lia;
    destruct (Z.leb_spec 500 (status_code r)), (Z.ltb_spec (status_code r) 600);
    cbn [andb]; try lia; reflexivity.
Qed.

Lemma call_backend_api_get_returns URL net endpoint :
  exists payload status,
    call_backend_api URL net endpoint "GET" None = Ret (payload, status).
Proof.
  rewrite call_backend_api_sends by apply list_elem_of_here.
  destruct (net _ _ _) as [msg|r]; [by eauto|].
  destruct (raise_for_status r); [by eauto|]. destruct (body r); eauto.
Qed.

(** X16. With GET, POST or DELETE the helper always returns: no failure
    of the exchange escapes it. The status it reports is never a 4xx or a
    5xx other than 500, so a caller never sees the backend's 400 or 404. *)
Theorem call_backend_api_never_raises URL net endpoint method data :
  method ∈ ["GET"; "POST"; "DELETE"] ->
  exists payload status,
    call_backend_api URL net endpoint method data = Ret (payload, status)
    /\ (400 <= status < 600 -> status = 500).
Proof.
  intros Hm. rewrite call_backend_api_sends by done.
  destruct (net _ _ _) as [msg|r]; [by eauto|].
  destruct (decide (400 <= status_code r < 600)) as [Hst|Hst].
  - rewrite raise_for_status_error by done. eauto.
  - rewrite raise_for_status_ok by done. destruct (body r); [|by eauto].
    eexists _, _. split; [done|]. intros ?. by destruct Hst.
Qed.

Lemma call_backend_api_never_raises_witness :
  ("DELETE" ∈ ["GET"; "POST"; "DELETE"])
  /\ exists payload status,
       call_backend_api Sample.localhost Sample.net_down "/api/users/2" "DELETE"
         None = Ret (payload, status)
       /\ (400 <= status < 600 -> status = 500).
Proof.
  assert (H : "DELETE" ∈ ["GET"; "POST"; "DELETE"])
    by apply list_elem_of_further, list_elem_of_further, list_elem_of_here.
  split; [exact H|].
  exact (call_backend_api_never_raises Sample.localhost Sample.net_down
           "/api/users/2" "DELETE" None H).
Defined.

(** X17. With any other method the helper raises [ValueError], which it
    does not catch; this is so for every transport, none is asked. *)
Theorem call_backend_api_unsupported URL net endpoint method data :
  method ∉ ["GET"; "POST"; "DELETE"] ->
  call_backend_api URL net endpoint method data = Raise ValueError.
Proof.
  intros Hm.
  assert (Hneq : forall m, m ∈ ["GET"; "POST"; "DELETE"] ->
                   String.eqb method m = false).
  { intros m Hin. apply String.eqb_neq. intros ->. by apply Hm. }
  unfold call_backend_api.
  by rewrite !Hneq by repeat constructor.
Qed.

Lemma call_backend_api_unsupported_witness :
  ("PUT" ∉ ["GET"; "POST"; "DELETE"])
  /\ call_backend_api Sample.localhost Sample.net_down "/api/users/1" "PUT" None
     = Raise ValueError.
Proof.
  assert (H : "PUT" ∉ ["GET"; "POST"; "DELETE"]).
  { intros [Heq|[Heq|[Heq|Hin]%elem_of_cons]%elem_of_cons]%elem_of_cons;
      [discriminate Heq..|by apply elem_of_nil in Hin]. }
  split; [exact H|].
  exact (call_backend_api_unsupported Sample.localhost Sample.net_down
           "/api/users/1" "PUT" None H).
Defined.

(** *** Forms *)

(** X18. A form without [name], [email] or [role] is answered 400, and
    the backend is not called: the answer is the same for every
    transport. *)
Theorem add_user_missing_form_field URL py_repr net form :
  form !! "name" = None \/ form !! "email" = None \/ form !! "role" = None ->
  serve (add_user URL py_repr net form) = BadRequest.
Proof.
  intros H. unfold add_user, form_getitem.
  destruct (form !! "name"); [|done].
  destruct (form !! "email"); [|done].
  destruct (form !! "role"); [|done].
  by destruct H as [|[|]].
Qed.

Lemma add_user_missing_form_field_witness :
  (({[ "name" := "A"; "email" := "a@x.com" ]} : gmap string string) !! "name" = None
   \/ ({[ "name" := "A"; "email" := "a@x.com" ]} : gmap string string) !! "email"
      = None
   \/ ({[ "name" := "A"; "email" := "a@x.com" ]} : gmap string string) !! "role"
      = None)
  /\ serve (add_user Sample.localhost Sample.no_repr Sample.net_down
              {[ "name" := "A"; "email" := "a@x.com" ]}) = BadRequest.
Proof.
  assert (H : ({[ "name" := "A"; "email" := "a@x.com" ]} : gmap string string)
                !! "name" = None
              \/ ({[ "name" := "A"; "email" := "a@x.com" ]} : gmap string string)
                   !! "email" = None
              \/ ({[ "name" := "A"; "email" := "a@x.com" ]} : gmap string string)
                   !! "role" = None)
    by (right; right; reflexivity).
  split; [exact H|].
  exact (add_user_missing_form_field Sample.localhost Sample.no_repr
           Sample.net_down _ H).
Defined.

(** *** The template *)

(** X19. A table row renders exactly for an object whose [id] and
    [created_at] are both there and can be sliced, that is, are strings or
    arrays; for any other user the row raises (a missing member is
    undefined, a number, boolean, null or object has no slice), and the
    page is a 500. *)
Theorem render_row_succeeds_iff user :
  (exists row, render_row user = Ret row)
  <-> exists (o : gmap string json) id created_at,
        user = JObj o
        /\ o !! "id" = Some id /\ sliceable id = true
        /\ o !! "created_at" = Some created_at /\ sliceable created_at = true.
Proof.
  split.
  - intros [row Hrow].
    destruct user as [|b|n|s|l|o]; try discriminate Hrow.
    exists o. revert Hrow. cbv [render_row jattr mbind res_bind].
    destruct (o !! "id") as [i|]; [|discriminate].
    destruct (o !! "name"), (o !! "email"), (o !! "role"),
      (o !! "created_at") as [c|];
      destruct i; try discriminate; try destruct c; try discriminate;
      intros _; by eexists _, _.
  - intros (o & i & c & -> & Hi & Hsi & Hc & Hsc).
    cbv [render_row jattr mbind res_bind]. rewrite Hi, Hc.
    destruct i; try discriminate Hsi; destruct c; try discriminate Hsc;
      cbn [jslice];
      destruct (o !! "name"), (o !! "email"), (o !! "role"); eauto.
Qed.

(** X20. The page needs the whole stats reply: when /api/stats is
    reported 200 with a non-empty object that has no [service_info], the
    environment card raises and the dashboard is answered 500, whatever
    the other two calls give. *)
Theorem dashboard_needs_service_info URL net args now (o : gmap string json) :
  o ≠ ∅ ->
  o !! "service_info" = None ->
  call_backend_api URL net "/api/stats" "GET" None = Ret (JObj o, 200) ->
  serve (dashboard URL net args now) = InternalError.
Proof.
  intros Ho Hsi Hstats.
  assert (Hget : "GET" ∈ ["GET"; "POST"; "DELETE"]) by apply list_elem_of_here.
  destruct (call_backend_api_get_returns URL net "/api/users")
    as (ur & us & Hu).
  destruct (call_backend_api_get_returns URL net "/health")
    as (hr & hs & Hh).
  assert (Ht : truthy (JObj o) = true).
  { unfold truthy. by rewrite bool_decide_eq_false_2. }
  unfold dashboard. rewrite Hu, Hstats, Hh. cbn [mbind res_bind].
  assert (Husers :
            (exists users,
               (if us =? 200 then get ur "users" (JArr []) else Ret (JArr []))
               = Ret users)
            \/ (if us =? 200 then get ur "users" (JArr []) else Ret (JArr []))
               = Raise AttributeError).
  { destruct (us =? 200); [destruct ur; cbn [get]; eauto|eauto]. }
  destruct Husers as [[users ->]| ->]; [|reflexivity].
  cbn [mbind res_bind Z.eqb Pos.eqb]. unfold render_main.
  cbn [stats stat_card foldl]. rewrite Ht.
  cbv [mbind res_bind jattr]. rewrite Hsi. by destruct (o !! "total_users").
Qed.

Lemma dashboard_needs_service_info_witness :
  ({[ "total_users" := JNum 2 ]} : gmap string json) ≠ ∅
  /\ ({[ "total_users" := JNum 2 ]} : gmap string json) !! "service_info" = None
  /\ call_backend_api Sample.localhost
       (backend_answers (JObj {[ "total_users" := JNum 2 ]}, 200) "OK")
       "/api/stats" "GET" None
     = Ret (JObj {[ "total_users" := JNum 2 ]}, 200)
  /\ serve (dashboard Sample.localhost
              (backend_answers (JObj {[ "total_users" := JNum 2 ]}, 200) "OK")
              ∅ "2025-01-03 12:00:00") = InternalError.
Proof.
  assert (H1 : ({[ "total_users" := JNum 2 ]} : gmap string json) ≠ ∅).
  { intros H. apply (f_equal (fun m : gmap string json => m !! "total_users")) in H.
    discriminate H. }
  split; [exact H1|]. split; [reflexivity|]. split; [reflexivity|].
  exact (dashboard_needs_service_info Sample.localhost
           (backend_answers (JObj {[ "total_users" := JNum 2 ]}, 200) "OK")
           ∅ "2025-01-03 12:00:00" {[ "total_users" := JNum 2 ]}
           H1 eq_refl eq_refl).
Defined.

(** *** The JSON routes *)

(** X21. The Dashboard's /health is always answered 200 with its own
    status "healthy". It reports the backend "healthy" exactly when the
    exchange gave a response with status 200 and a JSON body, and
    "unhealthy" in every other case: a failed exchange, another status, a
    body that is not JSON. *)
Theorem health_check_reports_backend URL net now :
  exists backend_status,
    health_check URL net now
      = Ret (JObj {[ "status" := JStr "healthy";
                     "service" := JStr "frontend-dashboard";
                     "backend_status" := JStr backend_status;
                     "timestamp" := JStr now;
                     "version" := JStr "1.0.0" ]}, 200)
    /\ (backend_status = "healthy" \/ backend_status = "unhealthy")
    /\ (backend_status = "healthy"
        <-> exists r j, net "GET" (URL +:+ "/health") None = Response r
                        /\ status_code r = 200 /\ body r = Json j).
Proof.
  assert (Hget : "GET" ∈ ["GET"; "POST"; "DELETE"]) by apply list_elem_of_here.
  unfold health_check. rewrite call_backend_api_sends by done.
  change (if String.eqb "GET" "POST" then None else None) with (@None json).
  destruct (net "GET" (URL +:+ "/health") None) as [msg|r] eqn:Hnet.
  - exists "unhealthy". split; [reflexivity|]. split; [by right|].
    split; [discriminate|]. by intros (r & j & [=] & _).
  - destruct (decide (400 <= status_code r < 600)) as [Hst|Hst].
    + rewrite raise_for_status_error by done.
      exists "unhealthy". split; [reflexivity|]. split; [by right|].
      split; [discriminate|]. intros (r' & j & [= <-] & H200 & _). lia.
    + rewrite raise_for_status_ok by done.
      destruct (body r) as [j|msg] eqn:Hbody.
      * cbn [mbind res_bind].
        destruct (Z.eqb_spec (status_code r) 200) as [H200|H200].
        -- exists "healthy". split; [reflexivity|]. split; [by left|].
           split; [|done]. intros _. by exists r, j.
        -- exists "unhealthy". split; [reflexivity|]. split; [by right|].
           split; [discriminate|]. by intros (r' & j' & [= <-] & ? & _).
      * exists "unhealthy". split; [reflexivity|]. split; [by right|].
        split; [discriminate|]. intros (r' & j & [= <-] & _ & Hj). congruence.
Qed.

(** X22. /api/frontend-stats is always answered 200. It relays the
    backend's stats and says "online" exactly when the exchange gave a
    response with status 200 and a JSON body; otherwise [backend_stats] is
    null and the status "offline". *)
Theorem frontend_stats_relays_backend URL net environment now :
  exists backend_status backend_stats,
    frontend_stats URL net environment now
      = Ret (JObj {[ "frontend_service" :=
                       JObj {[ "name" := JStr "frontend-dashboard";
                               "version" := JStr "1.0.0";
                               "environment" :=
                                 JStr (default "development" environment);
                               "backend_url" := JStr URL ]};
                     "backend_status" := JStr backend_status;
                     "backend_stats" := backend_stats;
                     "timestamp" := JStr now ]}, 200)
    /\ ((backend_status = "online"
         /\ exists r, net "GET" (URL +:+ "/api/stats") None = Response r
                      /\ status_code r = 200 /\ body r = Json backend_stats)
        \/ (backend_status = "offline" /\ backend_stats = JNull
            /\ ~ exists r j, net "GET" (URL +:+ "/api/stats") None = Response r
                             /\ status_code r = 200 /\ body r = Json j)).
Proof.
  assert (Hget : "GET" ∈ ["GET"; "POST"; "DELETE"]) by apply list_elem_of_here.
  unfold frontend_stats. rewrite call_backend_api_sends by done.
  change (if String.eqb "GET" "POST" then None else None) with (@None json).
  destruct (net "GET" (URL +:+ "/api/stats") None) as [msg|r] eqn:Hnet.
  - exists "offline", JNull. split; [reflexivity|]. right.
    split; [done|]. split; [done|]. by intros (r & j & [=] & _).
  - destruct (decide (400 <= status_code r < 600)) as [Hst|Hst].
    + rewrite raise_for_status_error by done.
      exists "offline", JNull. split; [reflexivity|]. right.
      split; [done|]. split; [done|]. intros (r' & j & [= <-] & H200 & _). lia.
    + rewrite raise_for_status_ok by done.
      destruct (body r) as [j|msg] eqn:Hbody.
      * cbn [mbind res_bind].
        destruct (Z.eqb_spec (status_code r) 200) as [H200|H200].
        -- exists "online", j. split; [reflexivity|]. left.
           split; [done|]. by exists r.
        -- exists "offline", JNull. split; [reflexivity|]. right.
           split; [done|]. split; [done|].
           by intros (r' & j' & [= <-] & ? & _).
      * exists "offline", JNull. split; [reflexivity|]. right.
        split; [done|]. split; [done|].
        intros (r' & j & [= <-] & _ & Hj). congruence.
Qed.

(** *** The two services together *)

Lemma call_backend_api_delivered URL net endpoint method data (r : reply)
  reason_phrase :
  method ∈ ["GET"; "POST"; "DELETE"] ->
  delivers net method (URL +:+ endpoint)
    (if String.eqb method "POST" then data else None) r reason_phrase ->
  ~ (400 <= r.2 < 600) ->
  call_backend_api URL net endpoint method data = Ret r.
Proof.
  intros Hm Hnet Hst. rewrite call_backend_api_sends by done.
  unfold delivers, backend_answers in Hnet. rewrite Hnet.
  rewrite raise_for_status_ok by done. by destruct r.
Qed.

(** X23. Whatever is typed into the form, a create relayed to the User
    Store succeeds: the backend asks only that [name] and [email] be
    there, and the form always sends them, empty or not. The user is
    stored with the form's three values and the handler redirects with
    the success message. *)
Theorem add_user_through_backend URL py_repr net e db reason_phrase
  form name email role :
  form !! "name" = Some name ->
  form !! "email" = Some email ->
  form !! "role" = Some role ->
  let user_data :=
    JObj {[ "name" := JStr name; "email" := JStr email; "role" := JStr role ]} in
  let new_user : gmap string json :=
    {[ "id" := JStr (Backend.env_uuid4 e);
       "name" := JStr name;
       "email" := JStr email;
       "role" := JStr role;
       "created_at" := JStr (Backend.env_utcnow e) ]} in
  delivers net "POST" (URL +:+ "/api/users") (Some user_data)
    (Backend.app e (Backend.POST_users user_data) db).1 reason_phrase ->
  Backend.app e (Backend.POST_users user_data) db
    = ((JObj new_user, 201), <[Backend.env_uuid4 e := new_user]> db)
  /\ serve (add_user URL py_repr net form)
     = redirect_dashboard ("User '" +:+ name +:+ "' added successfully!")
                          "success".
Proof.
  intros Hn He Hr user_data new_user Hnet.
  assert (Hcreate : Backend.app e (Backend.POST_users user_data) db
                    = ((JObj new_user, 201), <[Backend.env_uuid4 e := new_user]> db)).
  { pose proof (create_user_object e
                  {[ "name" := JStr name; "email" := JStr email;
                     "role" := JStr role ]}
                  (JStr name) (JStr email) db) as Hc.
    cbv zeta in Hc. subst user_data new_user. rewrite Hc.
    - rewrite !lookup_insert_ne by done. by rewrite lookup_singleton_eq.
    - apply lookup_insert_eq.
    - rewrite lookup_insert_ne by done. apply lookup_insert_eq. }
  split; [exact Hcreate|].
  rewrite Hcreate in Hnet. cbn [fst] in Hnet.
  assert (Hpost : "POST" ∈ ["GET"; "POST"; "DELETE"]) by repeat constructor.
  pose proof (call_backend_api_delivered URL net "/api/users" "POST"
                (Some user_data) (JObj new_user, 201) reason_phrase Hpost Hnet)
    as Hcall.
  unfold add_user, form_getitem. rewrite Hn, He, Hr. cbn [mbind res_bind].
  fold user_data. rewrite Hcall by (cbn [snd]; lia). reflexivity.
Qed.

Lemma add_user_through_backend_witness :
  ({[ "name" := ""; "email" := ""; "role" := "" ]} : gmap string string) !! "name"
    = Some ""
  /\ delivers (Sample.wire Sample.env0 Backend.users_db) "POST"
       "http://localhost:8086/api/users"
       (Some (JObj {[ "name" := JStr ""; "email" := JStr ""; "role" := JStr "" ]}))
       (Backend.app Sample.env0
          (Backend.POST_users
             (JObj {[ "name" := JStr ""; "email" := JStr ""; "role" := JStr "" ]}))
          Backend.users_db).1 "CREATED"
  /\ serve (add_user Sample.localhost Sample.no_repr
              (Sample.wire Sample.env0 Backend.users_db)
              {[ "name" := ""; "email" := ""; "role" := "" ]})
     = redirect_dashboard "User '' added successfully!" "success".
Proof.
  assert (Hnet : delivers (Sample.wire Sample.env0 Backend.users_db) "POST"
                   (Sample.localhost +:+ "/api/users")
                   (Some (JObj {[ "name" := JStr ""; "email" := JStr "";
                                  "role" := JStr "" ]}))
                   (Backend.app Sample.env0
                      (Backend.POST_users
                         (JObj {[ "name" := JStr ""; "email" := JStr "";
                                  "role" := JStr "" ]}))
                      Backend.users_db).1 "CREATED") by reflexivity.
  split; [reflexivity|]. split; [exact Hnet|].
  exact (proj2 (add_user_through_backend Sample.localhost Sample.no_repr
                  (Sample.wire Sample.env0 Backend.users_db) Sample.env0
                  Backend.users_db "CREATED"
                  {[ "name" := ""; "email" := ""; "role" := "" ]} "" "" ""
                  eq_refl eq_refl eq_refl Hnet)).
Defined.

(** X24. A delete relayed to the User Store, for an id that goes into the
    URL as it is (letters, digits, [-] and [_]; an id with other
    characters is not covered, for the path is built without encoding):
    for a stored id the handler redirects with the success message; for an
    id that is not stored the backend's 404 comes back as the helper's 500,
    and the handler redirects with the danger message made of the HTTP
    exception text. *)
Theorem delete_user_through_backend URL py_repr net e db reason_phrase user_id :
  plain_id user_id = true ->
  delivers net "DELETE" (URL +:+ "/api/users/" +:+ user_id) None
    (Backend.app e (Backend.DELETE_user user_id) db).1 reason_phrase ->
  serve (delete_user URL py_repr net user_id)
    = if decide (is_Some (db !! user_id)) then
        redirect_dashboard "User deleted successfully!" "success"
      else
        redirect_dashboard
          ("Failed to delete user: " +:+
           http_error_text 404 reason_phrase (URL +:+ "/api/users/" +:+ user_id))
          "danger".
Proof.
  intros _ Hnet.
  assert (Hdel : "DELETE" ∈ ["GET"; "POST"; "DELETE"]) by repeat constructor.
  unfold delete_user. destruct (decide (is_Some (db !! user_id))) as [[u Hu]|Hno].
  - rewrite (delete_user_present e db user_id u Hu) in Hnet. cbn [fst] in Hnet.
    rewrite (call_backend_api_delivered URL net _ "DELETE" None _ reason_phrase
               Hdel Hnet) by (cbn [snd]; lia).
    reflexivity.
  - rewrite delete_user_absent in Hnet
      by (destruct (db !! user_id) eqn:?; [destruct Hno; eauto|done]).
    cbn [fst] in Hnet.
    rewrite (call_backend_api_http_error URL net _ "DELETE" None _ Hdel Hnet)
      by (cbn [status_code snd]; lia).
    unfold error_body. cbn [mbind res_bind Z.eqb Pos.eqb get].
    by rewrite lookup_singleton_eq.
Qed.

Lemma delete_user_through_backend_witness :
  plain_id "2" = true
  /\ delivers (Sample.wire Sample.env0 Backend.users_db) "DELETE"
    "http://localhost:8086/api/users/2" None
    (Backend.app Sample.env0 (Backend.DELETE_user "2") Backend.users_db).1 "OK"
  /\ serve (delete_user Sample.localhost Sample.no_repr
              (Sample.wire Sample.env0 Backend.users_db) "2")
     = redirect_dashboard "User deleted successfully!" "success".
Proof.
  assert (Hnet : delivers (Sample.wire Sample.env0 Backend.users_db) "DELETE"
                   (Sample.localhost +:+ "/api/users/" +:+ "2") None
                   (Backend.app Sample.env0 (Backend.DELETE_user "2")
                      Backend.users_db).1 "OK") by reflexivity.
  split; [reflexivity|]. split; [exact Hnet|].
  exact (delete_user_through_backend Sample.localhost Sample.no_repr
           (Sample.wire Sample.env0 Backend.users_db) Sample.env0
           Backend.users_db "OK" "2" eq_refl Hnet).
Defined.





(** X26. A payload that is not an object is not relayed: when the create
    call comes back with a status that is neither an error status nor 201
    and a JSON body that is not an object, [response.get] raises and the
    browser gets the 500 page instead of a redirect. *)
Theorem add_user_non_object_payload URL py_repr net form name email role r j :
  form !! "name" = Some name ->
  form !! "email" = Some email ->
  form !! "role" = Some role ->
  net "POST" (URL +:+ "/api/users")
      (Some (JObj {[ "name" := JStr name; "email" := JStr email;
                     "role" := JStr role ]})) = Response r ->
  ~ (400 <= status_code r < 600) ->
  status_code r <> 201 ->
  body r = Json j ->
  (forall o, j <> JObj o) ->
  serve (add_user URL py_repr net form) = InternalError.
Proof.
  intros Hn He Hr Hnet Hst H201 Hbody Hj.
  assert (Hpost : "POST" ∈ ["GET"; "POST"; "DELETE"]) by repeat constructor.
  unfold add_user, form_getitem. rewrite Hn, He, Hr. cbn [mbind res_bind].
  rewrite call_backend_api_sends by done.
  change (if String.eqb "POST" "POST" then ?d else None) with d.
  rewrite Hnet, raise_for_status_ok, Hbody by done. cbn [mbind res_bind].
  rewrite (proj2 (Z.eqb_neq _ _) H201).
  destruct j; try reflexivity. by destruct (Hj o).
Qed.

Lemma add_user_non_object_payload_witness :
  Sample.form0 !! "name" = Some "A"
  /\ Sample.form0 !! "email" = Some "a@x.com"
  /\ Sample.form0 !! "role" = Some "user"
  /\ ~ (400 <= 200 < 600)
  /\ 200 <> 201
  /\ (forall o, JArr [] <> JObj o)
  /\ serve (add_user Sample.localhost Sample.no_repr
              (backend_answers (JArr [], 200) "OK") Sample.form0)
     = InternalError.
Proof.
  assert (H1 : ~ (400 <= 200 < 600)) by lia.
  assert (H2 : 200 <> 201) by discriminate.
  assert (H3 : forall o, JArr [] <> JObj o) by discriminate.
  split; [reflexivity|]. split; [reflexivity|]. split; [reflexivity|].
  split; [exact H1|]. split; [exact H2|]. split; [exact H3|].
  exact (add_user_non_object_payload Sample.localhost Sample.no_repr
           (backend_answers (JArr [], 200) "OK") Sample.form0 "A" "a@x.com"
           "user" _ (JArr []) eq_refl eq_refl eq_refl eq_refl H1 H2 eq_refl H3).
Defined.
